(** * Digital Products Store API: order placement and download resolution

    A shallow embedding of [main.py]: the request schemas, the
    [create_order] handler behind [POST /api/orders] and the
    [resolve_download] handler behind [GET /api/download/{token}], run
    against an explicit document store.  Handlers are written in a small
    state-and-exception monad over the store, so that what a handler raises
    and what it leaves in the store are both visible in its result. *)

From Stdlib Require Import ZArith List String Ascii Bool Lia Permutation.
From Stdlib Require Import Floats.PrimFloat Floats.SpecFloat Floats.FloatOps.
Import ListNotations.

Local Open Scope string_scope.
Local Open Scope Z_scope.

(* ===================================================================== *)
(** * The Python runtime, as far as the handlers use it                   *)
(* ===================================================================== *)

(** A [datetime] is a UTC wall-clock reading in microseconds since the
    epoch.  Every datetime the handlers build comes from
    [datetime.now(timezone.utc)], and a stored one is re-tagged with
    [.replace(tzinfo=timezone.utc)] before it is compared, so the wall-clock
    reading is all that a comparison sees. *)
Definition datetime : Type := Z.

(** [timedelta(days=n)] *)
Definition timedelta_days (n : Z) : Z := n * 86400000000.

(** The library functions the handlers call: [float] arithmetic and
    [round(x, 2)], [bson.ObjectId], and the [datetime] parsers and printer.
    The handlers are defined and verified for any implementation of them;
    [cpython] below is the one used to run examples. *)
Class Runtime : Type := {
  pyfloat : Type;
  f_zero : pyfloat;                               (* the literal [0.0] *)
  f_add : pyfloat -> pyfloat -> pyfloat;          (* [x + y] *)
  f_mul : pyfloat -> pyfloat -> pyfloat;          (* [x * y] *)
  float_of_int : Z -> pyfloat;                    (* [float(n)], also the int operand of [x * n] *)
  round2 : pyfloat -> pyfloat;                    (* [round(x, 2)] *)
  ObjectId : Type;
  ObjectId_eqb : ObjectId -> ObjectId -> bool;
  ObjectId_eqb_eq : forall a b, ObjectId_eqb a b = true <-> a = b;
  ObjectId_of_str : string -> option ObjectId;    (* [ObjectId(s)]; [None] when it raises *)
  str_of_ObjectId : ObjectId -> string;           (* [str(oid)] *)
  fromisoformat : string -> option datetime;      (* [datetime.fromisoformat(s)]; [None] when it raises *)
  isoformat : datetime -> string;                 (* [d.isoformat()] *)
  datetime_of_str : string -> option datetime     (* pydantic's [str -> datetime] for a model field *)
}.

(* ===================================================================== *)
(** * Exceptions and the handler monad                                    *)
(* ===================================================================== *)

Inductive exn : Type :=
| HTTPException (status_code : Z) (detail : string)
| RequestValidationError          (* FastAPI: the body does not fit the schema, HTTP 422 *)
| ValidationError                 (* pydantic: a model built inside a handler does not validate *)
| ValueError (msg : string)
| TypeError
| KeyError (key : string)
| DuplicateKeyError.

(** The status FastAPI answers with when a handler ends in [e]: an
    [HTTPException] carries its own, a body that fails validation gets 422,
    and any other exception leaves the handler unhandled, which is a 500. *)
Definition http_status (e : exn) : Z :=
  match e with
  | HTTPException status_code _ => status_code
  | RequestValidationError => 422
  | _ => 500
  end.

Inductive result (A : Type) : Type :=
| Return (a : A)
| Raise (e : exn).
Arguments Return {A} a.
Arguments Raise {A} e.

Definition bind_result {A B : Type} (r : result A) (k : A -> result B) : result B :=
  match r with
  | Return a => k a
  | Raise e => Raise e
  end.

(** [[f(x) for x in xs]] where [f] may raise: the first exception wins. *)
Fixpoint map_result {A B : Type} (f : A -> result B) (xs : list A) : result (list B) :=
  match xs with
  | [] => Return []
  | x :: xs' =>
      bind_result (f x) (fun y =>
      bind_result (map_result f xs') (fun ys => Return (y :: ys)))
  end.

Section Model.
Context {rt : Runtime}.

(* ===================================================================== *)
(** * Schemas ([main.py], "Schemas")                                      *)
(* ===================================================================== *)

(** [class CartItem]: [quantity: int = Field(1, ge=1, le=50)] *)
Record CartItem : Type := {
  product_id : string;
  quantity : Z
}.

(** [class OrderIn] *)
Record OrderIn : Type := {
  customer_name : string;
  customer_email : string;
  items : list CartItem
}.

(** [class DownloadLink] *)
Record DownloadLink : Type := {
  dl_product_id : string;
  dl_token : string;
  dl_expires_at : datetime
}.

(** [class Order] *)
Record Order : Type := {
  o_id : string;
  o_status : string;
  o_amount : pyfloat;
  o_items : list CartItem;
  o_customer_name : string;
  o_customer_email : string;
  o_download_links : list DownloadLink;
  o_created_at : datetime
}.

(** The constraints the schemas declare.  [CartItem] bounds [quantity];
    [OrderIn] declares [customer_name: str], [customer_email: str] and
    [items: List[CartItem]] with no [Field] constraint of their own, so an
    [OrderIn] validates exactly when each of its items does. *)
Definition CartItem_ok (i : CartItem) : bool :=
  (1 <=? quantity i) && (quantity i <=? 50).

Definition OrderIn_ok (p : OrderIn) : bool :=
  forallb CartItem_ok (items p).

(** A [CartItem] built inside a handler from a stored item: the model
    validates its fields again. *)
Definition CartItem_validate (i : CartItem) : result CartItem :=
  if CartItem_ok i then Return i else Raise ValidationError.

(* ===================================================================== *)
(** * Stored documents                                                    *)
(* ===================================================================== *)

(** What a schemaless field can hold, as far as [resolve_download] tells
    the cases apart. *)
Inductive pyval : Type :=
| PyNone
| PyStr (s : string)
| PyDatetime (d : datetime).

(** A document of [db["product"]].  [None] in [pd_file_url] is a missing
    key or a stored null, which [.get("file_url")] does not tell apart;
    [None] in [pd_price] is a missing key, the case [.get("price", 0)]
    provides for. *)
Record ProductDoc : Type := {
  pd_id : ObjectId;
  pd_title : string;
  pd_description : option string;
  pd_price : option pyfloat;
  pd_thumbnail_url : option string;
  pd_file_url : option string;
  pd_created_at : option datetime
}.

(** An element of an order's [download_links].  [ld_expires_at = None] is
    a missing key, [Some PyNone] a stored null. *)
Record LinkDoc : Type := {
  ld_product_id : string;
  ld_token : string;
  ld_expires_at : option pyval
}.

(** The dict [order_doc] that [create_order] builds. *)
Record OrderData : Type := {
  od_status : string;
  od_amount : pyfloat;
  od_items : list CartItem;
  od_customer_name : string;
  od_customer_email : string;
  od_download_links : list LinkDoc
}.

(** A document of [db["order"]]. *)
Record OrderDoc : Type := {
  od_id : ObjectId;
  od_created_at : option datetime;
  od_data : OrderData
}.

(** [class DemoLead], stored in [db["lead"]]. *)
Record LeadDoc : Type := {
  lead_name : string;
  lead_email : string;
  lead_phone : option string;
  lead_message : option string
}.

(** The database: one list of documents per collection, in insertion
    order. *)
Record Store : Type := {
  product : list ProductDoc;
  order : list OrderDoc;
  lead : list LeadDoc
}.

(** What a request reads from outside the store: the clock, the random
    source and the id the store hands out. *)
Record Env : Type := {
  now_utc : datetime;              (* [datetime.now(timezone.utc)] in the handler body *)
  token_urlsafe : nat -> string;   (* the k-th [secrets.token_urlsafe(24)] of the request *)
  inserted_id : ObjectId;          (* the [_id] given to the inserted document *)
  insert_time : datetime;          (* the clock when the document is inserted *)
  response_time : datetime         (* the clock when the response model is built *)
}.

(** A handler: it starts from a store and ends with a value or an
    exception, and with a store. *)
Definition M (A : Type) : Type := Store -> result A * Store.

Definition ret {A : Type} (a : A) : M A := fun st => (Return a, st).

Definition raise {A : Type} (e : exn) : M A := fun st => (Raise e, st).

Definition bind {A B : Type} (m : M A) (k : A -> M B) : M B :=
  fun st =>
    match m st with
    | (Return a, st') => k a st'
    | (Raise e, st') => (Raise e, st')
    end.

Definition lift {A : Type} (r : result A) : M A := fun st => (r, st).

End Model.

Declare Scope handler_scope.
Delimit Scope handler_scope with handler.
Notation "x <- m ;; k" := (bind m (fun x => k))
  (at level 61, m at next level, right associativity) : handler_scope.
Notation "' pat <- m ;; k" := (bind m (fun x => match x with pat => k end))
  (at level 61, pat pattern, m at next level, right associativity) : handler_scope.
Local Open Scope handler_scope.

Section Handlers.
Context {rt : Runtime}.

(* ===================================================================== *)
(** * Helpers                                                             *)
(* ===================================================================== *)

(** [PyObjectId.validate(v)] for a [str] argument *)
Definition PyObjectId_validate (v : string) : result ObjectId :=
  match ObjectId_of_str v with
  | Some oid => Return oid
  | None => Raise (ValueError "Invalid ObjectId")
  end.

(** A product document as [serialize_doc] returns it: [_id] becomes the
    string [id] and a datetime becomes its [isoformat()]. *)
Record ProductJson : Type := {
  pj_id : string;
  pj_title : string;
  pj_description : option string;
  pj_price : option pyfloat;
  pj_thumbnail_url : option string;
  pj_file_url : option string;
  pj_created_at : option string
}.

Definition serialize_doc (doc : ProductDoc) : ProductJson :=
  {| pj_id := str_of_ObjectId (pd_id doc);
     pj_title := pd_title doc;
     pj_description := pd_description doc;
     pj_price := pd_price doc;
     pj_thumbnail_url := pd_thumbnail_url doc;
     pj_file_url := pd_file_url doc;
     pj_created_at := option_map isoformat (pd_created_at doc) |}.

(* ===================================================================== *)
(** * The store client                                                    *)
(* ===================================================================== *)

(** [db["product"].find_one({"_id": oid})] *)
Definition find_one_product (oid : ObjectId) : M (option ProductDoc) :=
  fun st => (Return (find (fun d => ObjectId_eqb (pd_id d) oid) (product st)), st).

(** [db["order"].find_one({"_id": oid})] *)
Definition find_one_order (oid : ObjectId) : M (option OrderDoc) :=
  fun st => (Return (find (fun d => ObjectId_eqb (od_id d) oid) (order st)), st).

Definition has_token (token : string) (o : OrderDoc) : bool :=
  existsb (fun dl => String.eqb (ld_token dl) token) (od_download_links (od_data o)).

(** [db["order"].find_one({"download_links.token": token})]: the first
    order one of whose links carries the token. *)
Definition find_one_order_by_token (token : string) : M (option OrderDoc) :=
  fun st => (Return (find (has_token token) (order st)), st).

(** The store with one more document at the end of [db["order"]]. *)
Definition insert_order (st : Store) (doc : OrderDoc) : Store :=
  {| product := product st;
     order := (order st ++ [doc])%list;
     lead := lead st |}.

(** Modelled from the spec: [create_document] is defined in the
    repository's [database] module, which is not part of the sources at
    hand.  The store client is "a thin wrapper exposing
    [create(collection, data) -> id]", and [place_order] must "persist the
    Order as a single new document; return it with its assigned id and
    persisted [created_at]".  So the call appends one document carrying the
    data, the assigned [_id] and the insertion time, and returns the id.
    [_id] is the collection's key: an id already in use is refused.  The id
    is returned as an [ObjectId]; the handler's [ObjectId(new_id)] goes back
    from its string form to the same id. *)
Definition create_document_order (env : Env) (data : OrderData) : M ObjectId :=
  fun st =>
    if existsb (fun d => ObjectId_eqb (od_id d) (inserted_id env)) (order st)
    then (Raise DuplicateKeyError, st)
    else (Return (inserted_id env),
          insert_order st {| od_id := inserted_id env;
                             od_created_at := Some (insert_time env);
                             od_data := data |}).

(* ===================================================================== *)
(** * [create_order]                                                      *)
(* ===================================================================== *)

(** [float(prod.get("price", 0))] *)
Definition price_of (prod : ProductDoc) : pyfloat :=
  match pd_price prod with
  | Some p => p
  | None => float_of_int 0
  end.

(** The first loop of [create_order], from an item on: [total] and
    [validated_items] are the loop's two accumulators. *)
Fixpoint validate_cart (its : list CartItem) (total : pyfloat)
    (validated_items : list CartItem) : M (pyfloat * list CartItem) :=
  match its with
  | [] => ret (total, validated_items)
  | item :: rest =>
      oid <- lift (PyObjectId_validate (product_id item)) ;;
      prod <- find_one_product oid ;;
      match prod with
      | None =>
          raise (HTTPException 404 ("Product not found: " ++ product_id item))
      | Some prod =>
          let price := price_of prod in
          validate_cart rest
            (f_add total (f_mul price (float_of_int (quantity item))))
            (validated_items ++ [item])%list
      end
  end.

(** The second loop: one link per validated item, each with the next
    token of the random source and the shared [expires_at]. *)
Fixpoint mint_links (env : Env) (expires_at : datetime) (k : nat)
    (validated_items : list CartItem) : list LinkDoc :=
  match validated_items with
  | [] => []
  | item :: rest =>
      {| ld_product_id := product_id item;
         ld_token := token_urlsafe env k;
         ld_expires_at := Some (PyDatetime expires_at) |}
      :: mint_links env expires_at (S k) rest
  end.

(** [DownloadLink(product_id=dl["product_id"], token=dl["token"],
    expires_at=dl["expires_at"])] *)
Definition DownloadLink_of_doc (dl : LinkDoc) : result DownloadLink :=
  match ld_expires_at dl with
  | None => Raise (KeyError "expires_at")
  | Some PyNone => Raise ValidationError
  | Some (PyStr s) =>
      match datetime_of_str s with
      | Some d => Return {| dl_product_id := ld_product_id dl;
                            dl_token := ld_token dl;
                            dl_expires_at := d |}
      | None => Raise ValidationError
      end
  | Some (PyDatetime d) =>
      Return {| dl_product_id := ld_product_id dl;
                dl_token := ld_token dl;
                dl_expires_at := d |}
  end.

(** [Order(id=str(saved["_id"]), ...)], as both [create_order] and
    [get_order] build it; [default_created_at] is the clock reading passed
    to [saved.get("created_at", ...)]. *)
Definition Order_of_doc (default_created_at : datetime) (saved : OrderDoc)
    : result Order :=
  bind_result (map_result CartItem_validate (od_items (od_data saved))) (fun its =>
  bind_result (map_result DownloadLink_of_doc (od_download_links (od_data saved))) (fun dls =>
  Return {| o_id := str_of_ObjectId (od_id saved);
            o_status := od_status (od_data saved);
            o_amount := od_amount (od_data saved);
            o_items := its;
            o_customer_name := od_customer_name (od_data saved);
            o_customer_email := od_customer_email (od_data saved);
            o_download_links := dls;
            o_created_at := match od_created_at saved with
                            | Some d => d
                            | None => default_created_at
                            end |})).

Definition create_order (env : Env) (payload : OrderIn) : M Order :=
  (* Validate products and compute total *)
  '(total, validated_items) <- validate_cart (items payload) f_zero [] ;;
  (* Simulate instant payment success for demo *)
  let status := "paid" in
  (* Generate secure download tokens per product *)
  let expires_at := now_utc env + timedelta_days 7 in
  let download_links := mint_links env expires_at 0 validated_items in
  let order_doc :=
    {| od_status := status;
       od_amount := round2 total;
       od_items := validated_items;
       od_customer_name := customer_name payload;
       od_customer_email := customer_email payload;
       od_download_links := download_links |} in
  new_id <- create_document_order env order_doc ;;
  saved <- find_one_order new_id ;;
  match saved with
  | None => raise TypeError
  | Some saved => lift (Order_of_doc (response_time env) saved)
  end.

(** [POST /api/orders]: the body is validated against [OrderIn] before the
    handler runs; a body that does not validate is answered with 422 and
    the handler is not called. *)
Definition post_api_orders (env : Env) (body : OrderIn) : M Order :=
  if OrderIn_ok body then create_order env body
  else raise RequestValidationError.

(* ===================================================================== *)
(** * [resolve_download]                                                  *)
(* ===================================================================== *)

Record DownloadResponse : Type := {
  r_product : ProductJson;
  r_file_url : string;
  r_message : string
}.

(** The "Check expiry" block for the link found. *)
Definition check_expiry (env : Env) (link : LinkDoc) : result unit :=
  (* expires_at = link.get("expires_at") *)
  let expires_at :=
    match ld_expires_at link with
    | None => PyNone
    | Some v => v
    end in
  (* if isinstance(expires_at, str): try fromisoformat, except: pass *)
  let expires_at :=
    match expires_at with
    | PyStr s =>
        match fromisoformat s with
        | Some d => PyDatetime d
        | None => PyStr s
        end
    | v => v
    end in
  (* if expires_at and now > expires_at.replace(tzinfo=timezone.utc) *)
  match expires_at with
  | PyNone => Return tt
  | PyStr s =>
      if String.eqb s "" then Return tt
      else Raise TypeError              (* [str.replace] takes no [tzinfo] *)
  | PyDatetime d =>
      if now_utc env >? d
      then Raise (HTTPException 410 "Link expired")
      else Return tt
  end.

Definition download_message : string :=
  "Direct your client to this URL to download the file. In production, stream the file from secure storage.".

(** The "Resolve product file URL" block for the link found. *)
Definition resolve_file_url (link : LinkDoc) : M DownloadResponse :=
  oid <- lift (PyObjectId_validate (ld_product_id link)) ;;
  prod <- find_one_product oid ;;
  match prod with
  | None => raise (HTTPException 404 "Product not found")
  | Some prod =>
      match pd_file_url prod with
      | None | Some "" =>
          raise (HTTPException 404 "File not available for this product")
      | Some file_url =>
          ret {| r_product := serialize_doc prod;
                 r_file_url := file_url;
                 r_message := download_message |}
      end
  end.

Definition resolve_download (env : Env) (token : string) : M DownloadResponse :=
  order <- find_one_order_by_token token ;;
  match order with
  | None => raise (HTTPException 404 "Invalid token")
  | Some order =>
      (* Find the specific link *)
      match find (fun dl => String.eqb (ld_token dl) token)
                 (od_download_links (od_data order)) with
      | None => raise (HTTPException 404 "Download not found")
      | Some link =>
          _ <- lift (check_expiry env link) ;;
          resolve_file_url link
      end
  end.

End Handlers.

(* ===================================================================== *)
(** * [get_order] and the catalog routes                                  *)
(* ===================================================================== *)

(** The comparison [x >= y] on floats, which [Field(..., ge=0)] applies to
    a price. *)
Class FloatOrder (rt : Runtime) : Type := {
  f_ge : pyfloat -> pyfloat -> bool
}.

Section Catalog.
Context {rt : Runtime} {fo : FloatOrder rt}.

(** [GET /api/orders/{order_id}] *)
Definition get_order (env : Env) (order_id : string) : M Order :=
  oid <- lift (PyObjectId_validate order_id) ;;
  doc <- find_one_order oid ;;
  match doc with
  | None => raise (HTTPException 404 "Order not found")
  | Some doc => lift (Order_of_doc (response_time env) doc)
  end.

(** [class ProductIn]: [price: float = Field(..., ge=0)] *)
Record ProductIn : Type := {
  pi_title : string;
  pi_description : option string;
  pi_price : pyfloat;
  pi_thumbnail_url : option string;
  pi_file_url : option string
}.

(** [class Product(ProductIn)] *)
Record Product : Type := {
  p_id : string;
  p_title : string;
  p_description : option string;
  p_price : pyfloat;
  p_thumbnail_url : option string;
  p_file_url : option string;
  p_created_at : option datetime
}.

(** The one constraint [ProductIn] declares. *)
Definition ProductIn_ok (p : ProductIn) : bool :=
  f_ge (pi_price p) (float_of_int 0).

(** The [Product] built from a serialized product document: [price] is
    required and has to pass [ge=0]; [created_at] is optional, and an ISO
    string is parsed back into a datetime. *)
Definition Product_validate (doc : ProductJson) : result Product :=
  match pj_price doc with
  | None => Raise ValidationError
  | Some price =>
      if f_ge price (float_of_int 0) then
        match pj_created_at doc with
        | None =>
            Return {| p_id := pj_id doc;
                      p_title := pj_title doc;
                      p_description := pj_description doc;
                      p_price := price;
                      p_thumbnail_url := pj_thumbnail_url doc;
                      p_file_url := pj_file_url doc;
                      p_created_at := None |}
        | Some s =>
            match datetime_of_str s with
            | Some d =>
                Return {| p_id := pj_id doc;
                          p_title := pj_title doc;
                          p_description := pj_description doc;
                          p_price := price;
                          p_thumbnail_url := pj_thumbnail_url doc;
                          p_file_url := pj_file_url doc;
                          p_created_at := Some d |}
            | None => Raise ValidationError
            end
        end
      else Raise ValidationError
  end.

(** The document stored for a [ProductIn]: its [model_dump()] with the
    [_id] and the [created_at] the store gives it. *)
Definition product_doc (env : Env) (data : ProductIn) : ProductDoc :=
  {| pd_id := inserted_id env;
     pd_title := pi_title data;
     pd_description := pi_description data;
     pd_price := Some (pi_price data);
     pd_thumbnail_url := pi_thumbnail_url data;
     pd_file_url := pi_file_url data;
     pd_created_at := Some (insert_time env) |}.

(** The store with one more document at the end of [db["product"]]. *)
Definition insert_product (st : Store) (doc : ProductDoc) : Store :=
  {| product := (product st ++ [doc])%list;
     order := order st;
     lead := lead st |}.

(** Modelled from the spec: [create_document] of the repository's
    [database] module, here for the [product] collection.  The catalog's
    create "persists; returns the stored document with its assigned id and
    timestamp": the call appends one document carrying the data, the
    assigned [_id] and the insertion time, and returns the id; as for
    orders, an [_id] already in use is refused. *)
Definition create_document_product (env : Env) (data : ProductIn) : M ObjectId :=
  fun st =>
    if existsb (fun d => ObjectId_eqb (pd_id d) (inserted_id env)) (product st)
    then (Raise DuplicateKeyError, st)
    else (Return (inserted_id env), insert_product st (product_doc env data)).

(** Modelled from the spec: [get_documents] of the repository's [database]
    module, "find(collection, filter, limit) -> sequence of documents", as
    [list_products] calls it: the empty filter and no limit, which is every
    document of [db["product"]].  The spec leaves the order of the sequence
    open ("insertion order not guaranteed"); the documents are given here in
    the order the collection holds them, and what is proved of the listing
    is proved for the loop on the documents in any order where the order
    could matter. *)
Definition get_documents_product : M (list ProductDoc) :=
  fun st => (Return (product st), st).

(** The loop of [list_products], from a document on; [products] is the
    list built so far. *)
Fixpoint list_products_loop (docs : list ProductDoc) (products : list Product)
    : result (list Product) :=
  match docs with
  | [] => Return products
  | d :: rest =>
      bind_result (Product_validate (serialize_doc d)) (fun p =>
      list_products_loop rest (products ++ [p])%list)
  end.

(** [GET /api/products] *)
Definition list_products : M (list Product) :=
  docs <- get_documents_product ;;
  lift (list_products_loop docs []).

(** [create_product]; a document that cannot be read back would make
    [serialize_doc] return [None], which the [Product] call cannot unpack. *)
Definition create_product (env : Env) (product : ProductIn) : M Product :=
  let data := product in
  new_id <- create_document_product env data ;;
  created <- find_one_product new_id ;;
  match created with
  | None => raise TypeError
  | Some created => lift (Product_validate (serialize_doc created))
  end.

(** [POST /api/products]: the body is validated against [ProductIn] before
    the handler runs. *)
Definition post_api_products (env : Env) (body : ProductIn) : M Product :=
  if ProductIn_ok body then create_product env body
  else raise RequestValidationError.

(** The id the store is about to assign is not in use in the catalog. *)
Definition fresh_product_id (env : Env) (st : Store) : Prop :=
  ~ In (inserted_id env) (map pd_id (product st)).

(** The link document minted for the item at position [k] of a cart. *)
Definition minted_link (env : Env) (k : nat) (item : CartItem) : LinkDoc :=
  {| ld_product_id := product_id item;
     ld_token := token_urlsafe env k;
     ld_expires_at := Some (PyDatetime (now_utc env + timedelta_days 7)) |}.

(** A cart of one line. *)
Definition single_item_order (name email pid : string) (q : Z) : OrderIn :=
  {| customer_name := name;
     customer_email := email;
     items := [ {| product_id := pid; quantity := q |} ] |}.

End Catalog.

(* ===================================================================== *)
(** * Vocabulary for the properties                                       *)
(* ===================================================================== *)

Section Vocabulary.
Context {rt : Runtime}.

(** The product an item's [product_id] refers to, if any: the id has to be
    a well-formed [ObjectId] and a product has to carry it. *)
Definition lookup_product (st : Store) (pid : string) : option ProductDoc :=
  match ObjectId_of_str pid with
  | Some oid => find (fun d => ObjectId_eqb (pd_id d) oid) (product st)
  | None => None
  end.

Definition refers_to_product (st : Store) (item : CartItem) : bool :=
  match lookup_product st (product_id item) with
  | Some _ => true
  | None => false
  end.

(** [price_i * quantity_i] for an item and the product it refers to. *)
Definition line_total (line : CartItem * ProductDoc) : pyfloat :=
  f_mul (price_of (snd line)) (float_of_int (quantity (fst line))).

(** The sum of the line totals, added up from [0.0] in cart order. *)
Definition cart_sum (lines : list (CartItem * ProductDoc)) : pyfloat :=
  fold_left (fun acc line => f_add acc (line_total line)) lines f_zero.

(** What [create_order] raises on an item that refers to no product. *)
Definition unknown_product_error (item : CartItem) : exn :=
  match ObjectId_of_str (product_id item) with
  | Some _ => HTTPException 404 ("Product not found: " ++ product_id item)
  | None => ValueError "Invalid ObjectId"
  end.

(** The document [create_order] persists for a payload whose cart adds up
    to [total]: the [order_doc] of the handler with the [_id] and the
    [created_at] the store gives it. *)
Definition placed_order_doc (env : Env) (payload : OrderIn) (total : pyfloat)
    : OrderDoc :=
  {| od_id := inserted_id env;
     od_created_at := Some (insert_time env);
     od_data :=
       {| od_status := "paid";
          od_amount := round2 total;
          od_items := items payload;
          od_customer_name := customer_name payload;
          od_customer_email := customer_email payload;
          od_download_links :=
            mint_links env (now_utc env + timedelta_days 7) 0 (items payload) |} |}.

(** The id the store is about to assign is not in use. *)
Definition fresh_id (env : Env) (st : Store) : Prop :=
  ~ In (inserted_id env) (map od_id (order st)).

(** Every download link in the store, order by order. *)
Definition all_links (st : Store) : list LinkDoc :=
  flat_map (fun o => od_download_links (od_data o)) (order st).

Definition holds_token (token : string) (link : LinkDoc) : bool :=
  String.eqb (ld_token link) token.

(** The stored link a token matches: the first one that carries it. *)
Definition stored_link (st : Store) (token : string) : option LinkDoc :=
  find (holds_token token) (all_links st).

(** The timestamp a link's [expires_at] stands for: a stored datetime, or
    a string in ISO format. *)
Definition expiry_of (link : LinkDoc) : option datetime :=
  match ld_expires_at link with
  | Some (PyDatetime d) => Some d
  | Some (PyStr s) => fromisoformat s
  | _ => None
  end.

(** The token's link is past its expiry at the time of the request. *)
Definition expired (env : Env) (st : Store) (token : string) : bool :=
  match stored_link st token with
  | Some link =>
      match expiry_of link with
      | Some e => now_utc env >? e
      | None => false
      end
  | None => false
  end.

End Vocabulary.

Section Totals.
Context {rt : Runtime}.



End Totals.

(* ===================================================================== *)
(** * A runtime to run the handlers on                                    *)
(* ===================================================================== *)

(** [cpython] implements the runtime interface closely enough to replay
    requests: [float] is IEEE binary64 ([+] and [*] round to nearest, ties
    to even), [round(x, 2)] rounds the exact value of [x] to hundredths
    (ties to even) and returns the nearest float, an [ObjectId] is written
    as 24 hexadecimal digits, and the datetime parser reads back what the
    printer writes, [YYYY-MM-DDTHH:MM:SS] with microseconds when there are
    any. *)
Module CPython.

Definition round_half_even (n d : Z) : Z :=
  let q := n / d in
  let r := n mod d in
  if 2 * r <? d then q
  else if d <? 2 * r then q + 1
  else if Z.even q then q else q + 1.

(** The nearest float to [n / d], for [d > 0]. *)
Definition float_of_ratio (n : Z) (d : positive) : float :=
  match n with
  | Z0 => 0%float
  | Zpos p => SF2Prim (SFdiv prec emax (S754_finite false p 0) (S754_finite false d 0))
  | Zneg p => SF2Prim (SFdiv prec emax (S754_finite true p 0) (S754_finite false d 0))
  end.

Definition float_of_int (n : Z) : float := float_of_ratio n 1.

Definition round2 (x : float) : float :=
  match Prim2SF x with
  | S754_finite sg m e =>
      let n := if 0 <=? e then Z.pos m * 100 * 2 ^ e
               else round_half_even (Z.pos m * 100) (2 ^ (- e)) in
      match n with
      | Z0 => if sg then (-0)%float else 0%float
      | _ => float_of_ratio (if sg then - n else n) 100
      end
  | _ => x
  end.

Definition is_hex (c : ascii) : bool :=
  let n := Z.of_nat (nat_of_ascii c) in
  ((48 <=? n) && (n <=? 57)) || ((97 <=? n) && (n <=? 102)) || ((65 <=? n) && (n <=? 70)).

Definition lower (c : ascii) : ascii :=
  let n := nat_of_ascii c in
  if (65 <=? Z.of_nat n) && (Z.of_nat n <=? 90) then ascii_of_nat (n + 32) else c.

Definition ObjectId_of_str (s : string) : option string :=
  let cs := list_ascii_of_string s in
  if (Nat.eqb (List.length cs) 24) && forallb is_hex cs
  then Some (string_of_list_ascii (map lower cs))
  else None.

Definition digit (c : ascii) : option Z :=
  let n := Z.of_nat (nat_of_ascii c) in
  if (48 <=? n) && (n <=? 57) then Some (n - 48) else None.

Fixpoint number (cs : list ascii) (acc : Z) : option Z :=
  match cs with
  | [] => Some acc
  | c :: cs' =>
      match digit c with
      | Some d => number cs' (10 * acc + d)
      | None => None
      end
  end.

Definition is_leap (y : Z) : bool :=
  ((y mod 4 =? 0) && negb (y mod 100 =? 0)) || (y mod 400 =? 0).

Definition days_in_month (y m : Z) : Z :=
  if m =? 2 then (if is_leap y then 29 else 28)
  else if (m =? 4) || (m =? 6) || (m =? 9) || (m =? 11) then 30
  else 31.

(** Days from 1970-01-01 to the given date of the proleptic Gregorian
    calendar. *)
Definition days_from_civil (y m d : Z) : Z :=
  let y' := if m <=? 2 then y - 1 else y in
  let era := y' / 400 in
  let yoe := y' - era * 400 in
  let doy := (153 * (if 2 <? m then m - 3 else m + 9) + 2) / 5 + d - 1 in
  let doe := yoe * 365 + yoe / 4 - yoe / 100 + doy in
  era * 146097 + doe - 719468.

Definition civil_from_days (z : Z) : Z * Z * Z :=
  let z := z + 719468 in
  let era := z / 146097 in
  let doe := z - era * 146097 in
  let yoe := (doe - doe / 1460 + doe / 36524 - doe / 146096) / 365 in
  let doy := doe - (365 * yoe + yoe / 4 - yoe / 100) in
  let mp := (5 * doy + 2) / 153 in
  let d := doy - (153 * mp + 2) / 5 + 1 in
  let m := if mp <? 10 then mp + 3 else mp - 9 in
  (yoe + era * 400 + (if m <=? 2 then 1 else 0), m, d).

Definition is_char (c : ascii) (s : string) : bool :=
  String.eqb (String c EmptyString) s.

(** The date [YYYY-MM-DD], as days from 1970-01-01. *)
Definition date (y1 y2 y3 y4 s1 m1 m2 s2 d1 d2 : ascii) : option Z :=
  match number [y1; y2; y3; y4] 0, number [m1; m2] 0, number [d1; d2] 0 with
  | Some y, Some m, Some d =>
      if is_char s1 "-" && is_char s2 "-"
         && (1 <=? y) && (1 <=? m) && (m <=? 12)
         && (1 <=? d) && (d <=? days_in_month y m)
      then Some (days_from_civil y m d)
      else None
  | _, _, _ => None
  end.

(** The time [HH:MM:SS] behind a [T] or a space, as seconds of the day. *)
Definition clock (t h1 h2 s3 n1 n2 s4 c1 c2 : ascii) : option Z :=
  match number [h1; h2] 0, number [n1; n2] 0, number [c1; c2] 0 with
  | Some hh, Some mm, Some ss =>
      if (is_char t "T" || is_char t " ") && is_char s3 ":" && is_char s4 ":"
         && (hh <? 24) && (mm <? 60) && (ss <? 60)
      then Some ((hh * 60 + mm) * 60 + ss)
      else None
  | _, _, _ => None
  end.

(** An optional fraction of the second, [.fff] or [.ffffff], as
    microseconds, and what follows it. *)
Definition fraction (cs : list ascii) : option (Z * list ascii) :=
  match cs with
  | p :: f1 :: f2 :: f3 :: rest =>
      if is_char p "." then
        match number [f1; f2; f3] 0 with
        | Some ms =>
            match rest with
            | f4 :: f5 :: f6 :: rest' =>
                match number [f4; f5; f6] 0 with
                | Some us => Some (ms * 1000 + us, rest')
                | None => Some (ms * 1000, rest)
                end
            | _ => Some (ms * 1000, rest)
            end
        | None => None
        end
      else Some (0, cs)
  | p :: _ => if is_char p "." then None else Some (0, cs)
  | [] => Some (0, cs)
  end.

(** Nothing, or the UTC offset [+00:00]. *)
Definition utc_suffix (cs : list ascii) : bool :=
  match cs with
  | [] => true
  | _ => String.eqb (string_of_list_ascii cs) "+00:00"
  end.

(** The forms of [datetime.fromisoformat] that this system meets: a date,
    or a date and a time with an optional fraction of the second and an
    optional [+00:00], which covers everything [isoformat] below prints.
    Other UTC offsets and the reduced time forms are not handled. *)
Definition fromisoformat (s : string) : option datetime :=
  match list_ascii_of_string s with
  | y1 :: y2 :: y3 :: y4 :: s1 :: m1 :: m2 :: s2 :: d1 :: d2 :: rest =>
      match date y1 y2 y3 y4 s1 m1 m2 s2 d1 d2 with
      | Some days =>
          match rest with
          | [] => Some (days * 86400 * 1000000)
          | t :: h1 :: h2 :: s3 :: n1 :: n2 :: s4 :: c1 :: c2 :: rest' =>
              match clock t h1 h2 s3 n1 n2 s4 c1 c2, fraction rest' with
              | Some secs, Some (us, rest'') =>
                  if utc_suffix rest''
                  then Some ((days * 86400 + secs) * 1000000 + us)
                  else None
              | _, _ => None
              end
          | _ => None
          end
      | None => None
      end
  | _ => None
  end.

(** [n] written with [w] decimal digits. *)
Fixpoint digits (w : nat) (n : Z) : string :=
  match w with
  | O => ""
  | S w' =>
      digits w' (n / 10)
      ++ String (ascii_of_nat (Z.to_nat (48 + n mod 10))) EmptyString
  end.

Definition isoformat (d : datetime) : string :=
  let us := d mod 1000000 in
  let secs := d / 1000000 in
  let '(y, m, dd) := civil_from_days (secs / 86400) in
  let sod := secs mod 86400 in
  digits 4 y ++ "-" ++ digits 2 m ++ "-" ++ digits 2 dd ++ "T"
  ++ digits 2 (sod / 3600) ++ ":" ++ digits 2 (sod / 60 mod 60) ++ ":"
  ++ digits 2 (sod mod 60)
  ++ (if us =? 0 then "" else "." ++ digits 6 us).

End CPython.

Definition cpython : Runtime :=
  {| pyfloat := float;
     f_zero := 0%float;
     f_add := PrimFloat.add;
     f_mul := PrimFloat.mul;
     float_of_int := CPython.float_of_int;
     round2 := CPython.round2;
     ObjectId := string;
     ObjectId_eqb := String.eqb;
     ObjectId_eqb_eq := String.eqb_eq;
     ObjectId_of_str := CPython.ObjectId_of_str;
     str_of_ObjectId := fun oid => oid;
     fromisoformat := CPython.fromisoformat;
     isoformat := CPython.isoformat;
     datetime_of_str := CPython.fromisoformat |}.

(* ===================================================================== *)
(** * A small shop to replay requests on                                  *)
(* ===================================================================== *)

Module Shop.
#[local] Existing Instance cpython.

(** A price written in hundredths: [price 999] is the float [9.99]. *)
Definition price (hundredths : Z) : float := CPython.float_of_ratio hundredths 100.

Definition ebook_id : string := "65f0a1b2c3d4e5f6a7b8c9d0".
Definition draft_id : string := "65f0a1b2c3d4e5f6a7b8c9d1".
Definition gone_id : string := "65f0a1b2c3d4e5f6a7b8c9d2".   (* well formed, no product *)

(** 2024-03-01T12:00:00 UTC *)
Definition noon : datetime := 1709294400000000.

(** The spec's scenario product: an ebook at 9.99 with a file. *)
Definition ebook : ProductDoc :=
  {| pd_id := ebook_id;
     pd_title := "Ebook";
     pd_description := None;
     pd_price := Some (price 999);
     pd_thumbnail_url := None;
     pd_file_url := Some "https://x/e.pdf";
     pd_created_at := Some (noon - timedelta_days 30) |}.

(** A product that has no file yet. *)
Definition draft : ProductDoc :=
  {| pd_id := draft_id;
     pd_title := "Draft";
     pd_description := Some "work in progress";
     pd_price := Some (price 500);
     pd_thumbnail_url := None;
     pd_file_url := None;
     pd_created_at := Some (noon - timedelta_days 2) |}.

(** The catalog before any order. *)
Definition catalog : Store :=
  {| product := [ebook; draft]; order := []; lead := [] |}.

Definition env : Env :=
  {| now_utc := noon;
     token_urlsafe := fun k => "tok-" ++ CPython.digits 28 (Z.of_nat k);
     inserted_id := "65f0a1b2c3d4e5f6a7b8c9e0";
     insert_time := noon + 1;
     response_time := noon + 2 |}.

(** The same request environment one day, and eight days, later. *)
Definition env_after (days : Z) : Env :=
  {| now_utc := noon + timedelta_days days;
     token_urlsafe := token_urlsafe env;
     inserted_id := "65f0a1b2c3d4e5f6a7b8c9e1";
     insert_time := noon + timedelta_days days + 1;
     response_time := noon + timedelta_days days + 2 |}.

Definition cart (its : list CartItem) : OrderIn :=
  {| customer_name := "Ada"; customer_email := "ada@example.org"; items := its |}.

Definition line (pid : string) (q : Z) : CartItem :=
  {| product_id := pid; quantity := q |}.

(** An order document with the given links, as a past checkout left it. *)
Definition past_order (oid : string) (links : list LinkDoc) : OrderDoc :=
  {| od_id := oid;
     od_created_at := Some noon;
     od_data := {| od_status := "paid";
                   od_amount := price 999;
                   od_items := map (fun l => line (ld_product_id l) 1) links;
                   od_customer_name := "Ada";
                   od_customer_email := "ada@example.org";
                   od_download_links := links |} |}.

Definition link (pid token : string) (expires_at : option pyval) : LinkDoc :=
  {| ld_product_id := pid; ld_token := token; ld_expires_at := expires_at |}.

(** The shop after some checkouts.  The links of the first order expire
    seven days after [noon]; the second order holds links whose
    [expires_at] or [product_id] are not what [create_order] writes. *)
Definition shop : Store :=
  {| product := [ebook; draft];
     order :=
       [ past_order "65f0a1b2c3d4e5f6a7b8c9e0"
           [ link ebook_id "tok-ebook" (Some (PyDatetime (noon + timedelta_days 7)));
             link draft_id "tok-draft" (Some (PyDatetime (noon + timedelta_days 7)));
             link gone_id "tok-gone" (Some (PyDatetime (noon + timedelta_days 7))) ];
         past_order "65f0a1b2c3d4e5f6a7b8c9e2"
           [ link ebook_id "tok-iso" (Some (PyStr "2024-03-08T12:00:00"));
             link ebook_id "tok-text" (Some (PyStr "next week"));
             link ebook_id "tok-null" (Some PyNone);
             link ebook_id "tok-bare" None;
             link "ebook" "tok-slug" (Some (PyDatetime (noon + timedelta_days 7))) ] ];
     lead := [] |}.

(** The spec's scenario request: two copies of the ebook. *)
Definition two_ebooks : OrderIn := cart [line ebook_id 2].

(** What the scenario request is answered with on [catalog], and the
    document it leaves there. *)
Definition two_ebooks_order : Order :=
  {| o_id := "65f0a1b2c3d4e5f6a7b8c9e0";
     o_status := "paid";
     o_amount := price 1998;
     o_items := [line ebook_id 2];
     o_customer_name := "Ada";
     o_customer_email := "ada@example.org";
     o_download_links :=
       [ {| dl_product_id := ebook_id;
            dl_token := "tok-0000000000000000000000000000";
            dl_expires_at := noon + timedelta_days 7 |} ];
     o_created_at := noon + 1 |}.

Definition two_ebooks_doc : OrderDoc :=
  {| od_id := "65f0a1b2c3d4e5f6a7b8c9e0";
     od_created_at := Some (noon + 1);
     od_data :=
       {| od_status := "paid";
          od_amount := price 1998;
          od_items := [line ebook_id 2];
          od_customer_name := "Ada";
          od_customer_email := "ada@example.org";
          od_download_links :=
            [ link ebook_id "tok-0000000000000000000000000000"
                   (Some (PyDatetime (noon + timedelta_days 7))) ] |} |}.

(** A request with nothing in it. *)
Definition blank : OrderIn :=
  {| customer_name := ""; customer_email := ""; items := [] |}.

End Shop.

(** More of the shop: a product to add to the catalog, and a catalog with
    a product that was stored without a price. *)
Module Backroom.
#[local] Existing Instance cpython.
Import Shop.

(** [x >= y] on IEEE doubles. *)
Definition cpython_order : FloatOrder cpython :=
  {| f_ge := fun x y => PrimFloat.leb y x |}.

Definition course_id : string := "65f0a1b2c3d4e5f6a7b8c9d3".

Definition course : ProductIn :=
  {| pi_title := "Course";
     pi_description := Some "Ten lessons";
     pi_price := price 2550;
     pi_thumbnail_url := None;
     pi_file_url := Some "https://x/course.zip" |}.

(** The request that adds the course, one second after [noon]. *)
Definition env_course : Env :=
  {| now_utc := noon;
     token_urlsafe := token_urlsafe env;
     inserted_id := course_id;
     insert_time := noon + 1000000;
     response_time := noon + 1000001 |}.

Definition course_product : Product :=
  {| p_id := course_id;
     p_title := "Course";
     p_description := Some "Ten lessons";
     p_price := price 2550;
     p_thumbnail_url := None;
     p_file_url := Some "https://x/course.zip";
     p_created_at := Some (noon + 1000000) |}.

(** A later checkout, with an id of its own. *)
Definition env_checkout : Env :=
  {| now_utc := noon + timedelta_days 1;
     token_urlsafe := fun k => "key-" ++ CPython.digits 28 (Z.of_nat k);
     inserted_id := "65f0a1b2c3d4e5f6a7b8c9e3";
     insert_time := noon + timedelta_days 1 + 1;
     response_time := noon + timedelta_days 1 + 2 |}.

(** A product document that carries no [price] key. *)
Definition sample : ProductDoc :=
  {| pd_id := "65f0a1b2c3d4e5f6a7b8c9d4";
     pd_title := "Sample";
     pd_description := None;
     pd_price := None;
     pd_thumbnail_url := None;
     pd_file_url := Some "https://x/sample.pdf";
     pd_created_at := None |}.

Definition catalog_with_sample : Store :=
  {| product := [ebook; sample; draft]; order := []; lead := [] |}.

(** The catalog as the listing returns it. *)
Definition ebook_product : Product :=
  {| p_id := ebook_id;
     p_title := "Ebook";
     p_description := None;
     p_price := price 999;
     p_thumbnail_url := None;
     p_file_url := Some "https://x/e.pdf";
     p_created_at := Some (noon - timedelta_days 30) |}.

Definition draft_product : Product :=
  {| p_id := draft_id;
     p_title := "Draft";
     p_description := Some "work in progress";
     p_price := price 500;
     p_thumbnail_url := None;
     p_file_url := None;
     p_created_at := Some (noon - timedelta_days 2) |}.

End Backroom.

(* ===================================================================== *)
(** * Properties of [create_order]                                        *)
(* ===================================================================== *)

Section CreateOrder.
Context {rt : Runtime}.

Lemma ObjectId_eqb_refl (a : ObjectId) : ObjectId_eqb a a = true.
Proof. now apply ObjectId_eqb_eq. Qed.

(** One turn of the first loop: the item refers to a product and the loop
    goes on with its line total added, or the loop ends in the error of
    that item. *)
Lemma validate_cart_cons (item : CartItem) (rest : list CartItem)
    (total : pyfloat) (validated : list CartItem) (st : Store) :
  validate_cart (item :: rest) total validated st
  = match lookup_product st (product_id item) with
    | Some prod =>
        validate_cart rest (f_add total (line_total (item, prod)))
                      (validated ++ [item])%list st
    | None => (Raise (unknown_product_error item), st)
    end.
Proof.
  unfold lookup_product, unknown_product_error, line_total.
  change (validate_cart (item :: rest) total validated st)
    with ((oid <- lift (PyObjectId_validate (product_id item)) ;;
           prod <- find_one_product oid ;;
           match prod with
           | None => raise (HTTPException 404 ("Product not found: " ++ product_id item))
           | Some prod =>
               validate_cart rest
                 (f_add total (f_mul (price_of prod) (float_of_int (quantity item))))
                 (validated ++ [item])%list
           end) st).
  unfold bind, lift, PyObjectId_validate, find_one_product, raise.
  destruct (ObjectId_of_str (product_id item)) as [oid|]; [|reflexivity].
  now destruct (find _ (product st)).
Qed.

(** The first loop reads the store and never writes it. *)
Lemma validate_cart_store (its : list CartItem) :
  forall total validated st, snd (validate_cart its total validated st) = st.
Proof.
  induction its as [|item rest IH]; intros total validated st.
  - reflexivity.
  - rewrite validate_cart_cons.
    destruct (lookup_product st (product_id item)); [apply IH|reflexivity].
Qed.

(** When every item refers to a product, the loop ends with the sum of
    the line totals and with every item validated. *)
Lemma validate_cart_Return (its : list CartItem) :
  forall prods total validated st,
    Forall2 (fun item prod => lookup_product st (product_id item) = Some prod) its prods ->
    validate_cart its total validated st
    = (Return (fold_left (fun acc line => f_add acc (line_total line))
                         (combine its prods) total,
               (validated ++ its)%list), st).
Proof.
  induction its as [|item rest IH]; intros prods total validated st H;
    inversion H as [|? prod ? prods' Hitem Hrest]; subst.
  - cbn. now rewrite app_nil_r.
  - rewrite validate_cart_cons, Hitem, (IH prods' _ _ st Hrest).
    cbn [combine fold_left]. now rewrite <- app_assoc.
Qed.

(** The loop stops at the first item that refers to no product, with the
    error of that item. *)
Lemma validate_cart_Raise (pre post : list CartItem) (item : CartItem) :
  forall total validated st,
    forallb (refers_to_product st) pre = true ->
    lookup_product st (product_id item) = None ->
    validate_cart (pre ++ item :: post) total validated st
    = (Raise (unknown_product_error item), st).
Proof.
  induction pre as [|x pre IH]; intros total validated st Hpre Hitem.
  - cbn [app]. now rewrite validate_cart_cons, Hitem.
  - cbn [app]. rewrite validate_cart_cons.
    cbn in Hpre. apply andb_prop in Hpre as [Hx Hpre].
    unfold refers_to_product in Hx.
    destruct (lookup_product st (product_id x)); [|discriminate].
    now apply IH.
Qed.

(** A cart with an item that refers to no product splits at the first
    such item. *)
Lemma first_unknown_product (st : Store) (its : list CartItem) :
  forallb (refers_to_product st) its = false ->
  exists pre item post,
    its = (pre ++ item :: post)%list /\
    forallb (refers_to_product st) pre = true /\
    lookup_product st (product_id item) = None.
Proof.
  induction its as [|x its IH]; cbn; [discriminate|].
  destruct (refers_to_product st x) eqn:Hx; cbn.
  - intros H. destruct (IH H) as (pre & item & post & -> & Hpre & Hitem).
    exists (x :: pre), item, post. cbn. now rewrite Hx, Hpre.
  - intros _. exists [], x, its. repeat split.
    unfold refers_to_product in Hx.
    now destruct (lookup_product st (product_id x)).
Qed.

(** The other case: every item refers to a product. *)
Lemma all_known_products (st : Store) (its : list CartItem) :
  forallb (refers_to_product st) its = true ->
  exists prods,
    Forall2 (fun item prod => lookup_product st (product_id item) = Some prod) its prods.
Proof.
  induction its as [|x its IH]; cbn.
  - intros _. exists []. constructor.
  - intros H. apply andb_prop in H as [Hx H].
    destruct (IH H) as [prods Hprods]. unfold refers_to_product in Hx.
    destruct (lookup_product st (product_id x)) as [prod|] eqn:E; [|discriminate].
    exists (prod :: prods). now constructor.
Qed.

Lemma fresh_id_existsb (env : Env) (st : Store) :
  fresh_id env st <->
  existsb (fun d => ObjectId_eqb (od_id d) (inserted_id env)) (order st) = false.
Proof.
  unfold fresh_id. rewrite <- not_true_iff_false, existsb_exists, in_map_iff.
  split; intros H (d & H1 & H2); apply H; exists d.
  - apply ObjectId_eqb_eq in H2. now split.
  - split; [easy|]. now apply ObjectId_eqb_eq.
Qed.

(** Looking a fresh id up after the insertion finds the inserted
    document. *)
Lemma find_inserted (docs : list OrderDoc) (doc : OrderDoc) :
  existsb (fun d => ObjectId_eqb (od_id d) (od_id doc)) docs = false ->
  find (fun d => ObjectId_eqb (od_id d) (od_id doc)) (docs ++ [doc]) = Some doc.
Proof.
  induction docs as [|d docs IH]; cbn.
  - now rewrite ObjectId_eqb_refl.
  - destruct (ObjectId_eqb (od_id d) (od_id doc)); [discriminate|exact IH].
Qed.

Lemma map_result_CartItem_validate (its : list CartItem) :
  map_result CartItem_validate its
  = if forallb CartItem_ok its then Return its else Raise ValidationError.
Proof.
  induction its as [|x its IH]; [reflexivity|].
  cbn [map_result forallb]. unfold CartItem_validate at 1.
  destruct (CartItem_ok x); [|reflexivity].
  cbn. rewrite IH. now destruct (forallb CartItem_ok its).
Qed.

(** The links read back from a fresh order document: one per item, in
    cart order, with the item's [product_id], the tokens drawn in turn and
    the expiry they were minted with. *)
Lemma map_result_minted (env : Env) (e : datetime) (its : list CartItem) :
  forall k,
  exists dls,
    map_result DownloadLink_of_doc (mint_links env e k its) = Return dls /\
    map dl_product_id dls = map product_id its /\
    map dl_token dls = map (token_urlsafe env) (seq k (List.length its)) /\
    Forall (fun dl => dl_expires_at dl = e) dls.
Proof.
  induction its as [|x its IH]; intros k.
  - exists []. cbn. repeat split. constructor.
  - destruct (IH (S k)) as (dls & H1 & H2 & H3 & H4).
    eexists (_ :: dls). cbn [mint_links map_result].
    unfold DownloadLink_of_doc at 1. cbn [ld_expires_at bind_result].
    rewrite H1. cbn. rewrite H2, H3. repeat split. now constructor.
Qed.

(** [create_order] on a cart whose items all refer to products, when the
    store accepts the insertion: the order document is appended and the
    response is built from it. *)
Lemma create_order_known (env : Env) (payload : OrderIn) (st : Store)
    (prods : list ProductDoc) :
  Forall2 (fun item prod => lookup_product st (product_id item) = Some prod)
          (items payload) prods ->
  fresh_id env st ->
  let doc := placed_order_doc env payload (cart_sum (combine (items payload) prods)) in
  create_order env payload st
  = (Order_of_doc (response_time env) doc, insert_order st doc).
Proof.
  intros Hprods Hfresh doc. apply fresh_id_existsb in Hfresh.
  unfold create_order, bind at 1.
  rewrite (validate_cart_Return _ prods _ _ _ Hprods). cbn [app].
  unfold bind at 1, create_document_order. rewrite Hfresh.
  unfold bind, find_one_order, insert_order. cbn [order].
  pose proof (find_inserted (order st) doc Hfresh) as Hfind.
  change (od_id doc) with (inserted_id env) in Hfind.
  unfold doc, placed_order_doc, cart_sum in Hfind |- *. now rewrite Hfind.
Qed.

(** The same cart when the id is already in use: the store refuses the
    document. *)
Lemma create_order_duplicate (env : Env) (payload : OrderIn) (st : Store) :
  forallb (refers_to_product st) (items payload) = true ->
  ~ fresh_id env st ->
  create_order env payload st = (Raise DuplicateKeyError, st).
Proof.
  intros Hknown Hdup. destruct (all_known_products _ _ Hknown) as [prods Hprods].
  rewrite fresh_id_existsb in Hdup. apply not_false_is_true in Hdup.
  unfold create_order, bind at 1.
  rewrite (validate_cart_Return _ prods _ _ _ Hprods).
  unfold bind at 1, create_document_order. now rewrite Hdup.
Qed.

(** [create_order] on a cart with an item that refers to no product. *)
Lemma create_order_unknown (env : Env) (payload : OrderIn) (st : Store)
    (pre post : list CartItem) (item : CartItem) :
  items payload = (pre ++ item :: post)%list ->
  forallb (refers_to_product st) pre = true ->
  lookup_product st (product_id item) = None ->
  create_order env payload st = (Raise (unknown_product_error item), st).
Proof.
  intros Hitems Hpre Hitem. unfold create_order, bind at 1.
  now rewrite Hitems, (validate_cart_Raise pre post item _ _ st Hpre Hitem).
Qed.

(** The response built from the document of a placed order. *)
Lemma Order_of_placed_doc (env : Env) (payload : OrderIn) (total : pyfloat) :
  exists dls,
    map dl_product_id dls = map product_id (items payload) /\
    map dl_token dls
    = map (token_urlsafe env) (seq 0 (List.length (items payload))) /\
    Forall (fun dl => dl_expires_at dl = now_utc env + timedelta_days 7) dls /\
    Order_of_doc (response_time env) (placed_order_doc env payload total)
    = if OrderIn_ok payload
      then Return {| o_id := str_of_ObjectId (inserted_id env);
                     o_status := "paid";
                     o_amount := round2 total;
                     o_items := items payload;
                     o_customer_name := customer_name payload;
                     o_customer_email := customer_email payload;
                     o_download_links := dls;
                     o_created_at := insert_time env |}
      else Raise ValidationError.
Proof.
  destruct (map_result_minted env (now_utc env + timedelta_days 7) (items payload) 0%nat)
    as (dls & H1 & H2 & H3 & H4).
  exists dls. repeat split; try assumption.
  unfold Order_of_doc, placed_order_doc, OrderIn_ok. cbn [od_data od_items od_download_links].
  rewrite map_result_CartItem_validate.
  destruct (forallb CartItem_ok (items payload)); [|reflexivity].
  cbn [bind_result]. rewrite H1. reflexivity.
Qed.

(** [create_order] never ends in the error of the request validation. *)
Lemma create_order_not_422 (env : Env) (payload : OrderIn) (st : Store) :
  fst (create_order env payload st) <> Raise RequestValidationError.
Proof.
  destruct (forallb (refers_to_product st) (items payload)) eqn:Hknown.
  - destruct (existsb (fun d => ObjectId_eqb (od_id d) (inserted_id env)) (order st))
      eqn:Hid.
    + rewrite create_order_duplicate; [discriminate|assumption|].
      rewrite fresh_id_existsb, Hid. discriminate.
    + destruct (all_known_products _ _ Hknown) as [prods Hprods].
      apply fresh_id_existsb in Hid. rewrite (create_order_known _ _ _ _ Hprods Hid).
      destruct (Order_of_placed_doc env payload
                  (cart_sum (combine (items payload) prods))) as (dls & _ & _ & _ & ->).
      cbn [fst]. destruct (OrderIn_ok payload); discriminate.
  - destruct (first_unknown_product _ _ Hknown) as (pre & item & post & H1 & H2 & H3).
    rewrite (create_order_unknown _ _ _ _ _ _ H1 H2 H3). cbn [fst].
    unfold unknown_product_error. destruct (ObjectId_of_str _); discriminate.
Qed.

Lemma OrderIn_ok_false (body : OrderIn) :
  OrderIn_ok body = false <->
  exists item, In item (items body) /\ (quantity item < 1 \/ 50 < quantity item).
Proof.
  unfold OrderIn_ok. rewrite <- not_true_iff_false, forallb_forall. split.
  - intros H. induction (items body) as [|x its IH].
    + exfalso. apply H. intros ? [].
    + destruct (CartItem_ok x) eqn:Hx.
      * destruct IH as (item & Hin & Hq).
        { intros Hall. apply H. intros y [<-|Hy]; auto. }
        exists item. split; [now right|exact Hq].
      * exists x. split; [now left|]. unfold CartItem_ok in Hx.
        apply andb_false_iff in Hx as [Hx|Hx]; [left|right]; lia.
  - intros (item & Hin & Hq) Hall. specialize (Hall item Hin).
    unfold CartItem_ok in Hall. lia.
Qed.

(** C1 (as amended): the request validation of [POST /api/orders] enforces
    the quantity range and nothing else.  A request is refused with the 422
    validation error exactly when one of its items has a quantity outside
    [1, 50], and then the store is left as it was; an empty [items] list and
    empty [customer_name] or [customer_email] strings are not grounds for a
    refusal. *)
Theorem post_api_orders_refuses_quantity_only (env : Env) (body : OrderIn) (st : Store) :
  (fst (post_api_orders env body st) = Raise RequestValidationError <->
   exists item, In item (items body) /\ (quantity item < 1 \/ 50 < quantity item)) /\
  (fst (post_api_orders env body st) = Raise RequestValidationError ->
   snd (post_api_orders env body st) = st).
Proof.
  rewrite <- OrderIn_ok_false. unfold post_api_orders.
  destruct (OrderIn_ok body); cbn.
  - split; [split; [|discriminate]|]; intros H;
      now apply create_order_not_422 in H.
  - now repeat split.
Qed.

(** C3 (as amended): when some item of the cart refers to no existing
    product, [create_order] fails at the first such item and writes
    nothing: the store is returned as it was.  The error is the 404
    "Product not found" naming that item's product id when the id is a
    well-formed ObjectId, and the ValueError of [PyObjectId.validate] when
    it is not. *)
Theorem create_order_unknown_product (env : Env) (payload : OrderIn) (st : Store) :
  (exists item, In item (items payload) /\
                lookup_product st (product_id item) = None) ->
  exists pre item post,
    items payload = (pre ++ item :: post)%list /\
    forallb (refers_to_product st) pre = true /\
    lookup_product st (product_id item) = None /\
    create_order env payload st
    = (Raise match ObjectId_of_str (product_id item) with
             | Some _ => HTTPException 404 ("Product not found: " ++ product_id item)
             | None => ValueError "Invalid ObjectId"
             end, st).
Proof.
  intros (bad & Hin & Hbad).
  assert (Hknown : forallb (refers_to_product st) (items payload) = false).
  { apply not_true_iff_false. intros Hall.
    rewrite forallb_forall in Hall. specialize (Hall bad Hin).
    unfold refers_to_product in Hall. now rewrite Hbad in Hall. }
  destruct (first_unknown_product _ _ Hknown) as (pre & item & post & H1 & H2 & H3).
  exists pre, item, post. repeat split; try assumption.
  exact (create_order_unknown _ _ _ _ _ _ H1 H2 H3).
Qed.



(** What a successful [POST /api/orders] returns and leaves in the
    store. *)
Lemma post_api_orders_Return (env : Env) (body : OrderIn) (st st' : Store) (o : Order) :
  post_api_orders env body st = (Return o, st') ->
  exists prods dls,
    Forall2 (fun item prod => lookup_product st (product_id item) = Some prod)
            (items body) prods /\
    map dl_product_id dls = map product_id (items body) /\
    map dl_token dls = map (token_urlsafe env) (seq 0 (List.length (items body))) /\
    Forall (fun dl => dl_expires_at dl = now_utc env + timedelta_days 7) dls /\
    o = {| o_id := str_of_ObjectId (inserted_id env);
           o_status := "paid";
           o_amount := round2 (cart_sum (combine (items body) prods));
           o_items := items body;
           o_customer_name := customer_name body;
           o_customer_email := customer_email body;
           o_download_links := dls;
           o_created_at := insert_time env |} /\
    st' = insert_order st
            (placed_order_doc env body (cart_sum (combine (items body) prods))).
Proof.
  unfold post_api_orders. destruct (OrderIn_ok body) eqn:Hok; [|discriminate].
  destruct (forallb (refers_to_product st) (items body)) eqn:Hknown.
  - destruct (existsb (fun d => ObjectId_eqb (od_id d) (inserted_id env)) (order st))
      eqn:Hid.
    + rewrite create_order_duplicate; [discriminate|assumption|].
      rewrite fresh_id_existsb, Hid. discriminate.
    + destruct (all_known_products _ _ Hknown) as [prods Hprods].
      apply fresh_id_existsb in Hid. rewrite (create_order_known _ _ _ _ Hprods Hid).
      destruct (Order_of_placed_doc env body
                  (cart_sum (combine (items body) prods))) as (dls & H1 & H2 & H3 & ->).
      rewrite Hok. intros [= <- <-]. now exists prods, dls.
  - destruct (first_unknown_product _ _ Hknown) as (pre & item & post & H1 & H2 & H3).
    rewrite (create_order_unknown _ _ _ _ _ _ H1 H2 H3). discriminate.
Qed.

(** C6: an order returned by a successful [POST /api/orders] has status
    "paid" and one download link per cart item, in cart order: the links are
    as many as the items, each carries its item's [product_id], and each
    expires seven days after the [now_utc] read when the order is made. *)
Theorem post_api_orders_paid_with_links (env : Env) (body : OrderIn) (st st' : Store)
    (o : Order) :
  post_api_orders env body st = (Return o, st') ->
  o_status o = "paid" /\
  List.length (o_download_links o) = List.length (items body) /\
  map dl_product_id (o_download_links o) = map product_id (items body) /\
  Forall (fun dl => dl_expires_at dl = now_utc env + timedelta_days 7)
         (o_download_links o).
Proof.
  intros H. apply post_api_orders_Return in H
    as (prods & dls & _ & H1 & _ & H3 & -> & _).
  cbn. repeat split; try assumption.
  rewrite <- (length_map dl_product_id), H1. apply length_map.
Qed.

(** C8: [POST /api/orders] accepts an empty cart whatever the customer
    strings are: the request succeeds and appends an order document with
    status "paid", amount [0.0], no items and no download links, and the
    order returned says the same.  ([round(0.0, 2)] is [0.0]; the store
    assigns an id that is not in use.) *)
Theorem post_api_orders_empty_cart (env : Env) (body : OrderIn) (st : Store) :
  items body = [] ->
  round2 f_zero = f_zero ->
  fresh_id env st ->
  post_api_orders env body st
  = (Return {| o_id := str_of_ObjectId (inserted_id env);
               o_status := "paid";
               o_amount := f_zero;
               o_items := [];
               o_customer_name := customer_name body;
               o_customer_email := customer_email body;
               o_download_links := [];
               o_created_at := insert_time env |},
     insert_order st
       {| od_id := inserted_id env;
          od_created_at := Some (insert_time env);
          od_data := {| od_status := "paid";
                        od_amount := f_zero;
                        od_items := [];
                        od_customer_name := customer_name body;
                        od_customer_email := customer_email body;
                        od_download_links := [] |} |}).
Proof.
  intros Hitems Hround Hfresh. unfold post_api_orders, OrderIn_ok.
  rewrite Hitems. cbn [forallb].
  assert (Hprods : Forall2 (fun item prod =>
                              lookup_product st (product_id item) = Some prod)
                           (items body) []) by (rewrite Hitems; constructor).
  rewrite (create_order_known _ _ _ _ Hprods Hfresh).
  unfold placed_order_doc, Order_of_doc. rewrite Hitems. cbn. now rewrite Hround.
Qed.

End CreateOrder.

(* ===================================================================== *)
(** * Properties of [resolve_download]                                    *)
(* ===================================================================== *)

Section ResolveDownload.
Context {rt : Runtime}.

Lemma find_app {A : Type} (p : A -> bool) (l1 l2 : list A) :
  find p (l1 ++ l2) = match find p l1 with
                      | Some x => Some x
                      | None => find p l2
                      end.
Proof.
  induction l1 as [|x l1 IH]; cbn; [reflexivity|].
  now destruct (p x).
Qed.

Lemma existsb_find {A : Type} (p : A -> bool) (l : list A) :
  existsb p l = match find p l with Some _ => true | None => false end.
Proof.
  induction l as [|x l IH]; cbn; [reflexivity|].
  now destruct (p x).
Qed.

(** Searching the links order by order is searching the first order that
    has a match. *)
Lemma find_flat_map {A B : Type} (f : A -> list B) (p : B -> bool) (l : list A) :
  find p (flat_map f l)
  = match find (fun x => existsb p (f x)) l with
    | Some x => find p (f x)
    | None => None
    end.
Proof.
  induction l as [|x l IH]; cbn; [reflexivity|].
  rewrite find_app, existsb_find, IH.
  destruct (find p (f x)) eqn:E; [now rewrite E|reflexivity].
Qed.

(** The two searches of the handler, for the order and then for the link
    inside it, end on the first stored link that carries the token. *)
Lemma resolve_download_stored_link (env : Env) (token : string) (st : Store) :
  resolve_download env token st
  = match stored_link st token with
    | None => (Raise (HTTPException 404 "Invalid token"), st)
    | Some link =>
        match check_expiry env link with
        | Return _ => resolve_file_url link st
        | Raise e => (Raise e, st)
        end
    end.
Proof.
  unfold stored_link, all_links. rewrite find_flat_map.
  unfold resolve_download, bind at 1, find_one_order_by_token.
  change (fun x : OrderDoc => existsb (holds_token token) (od_download_links (od_data x)))
    with (has_token token).
  destruct (find (has_token token) (order st)) as [o|] eqn:Ho; [|reflexivity].
  apply find_some in Ho as [_ Ho]. unfold has_token in Ho.
  rewrite existsb_find in Ho. unfold holds_token.
  destruct (find _ (od_download_links (od_data o))) as [link|]; [|discriminate].
  unfold bind, lift. now destruct (check_expiry env link).
Qed.

(** The product re-fetch, by cases. *)
Lemma resolve_file_url_cases (link : LinkDoc) (st : Store) :
  resolve_file_url link st
  = (match ObjectId_of_str (ld_product_id link) with
     | None => Raise (ValueError "Invalid ObjectId")
     | Some _ =>
         match lookup_product st (ld_product_id link) with
         | None => Raise (HTTPException 404 "Product not found")
         | Some prod =>
             match pd_file_url prod with
             | None | Some "" =>
                 Raise (HTTPException 404 "File not available for this product")
             | Some file_url =>
                 Return {| r_product := serialize_doc prod;
                           r_file_url := file_url;
                           r_message := download_message |}
             end
         end
     end, st).
Proof.
  unfold resolve_file_url, lookup_product, bind, lift, PyObjectId_validate,
    find_one_product, raise, ret.
  destruct (ObjectId_of_str (ld_product_id link)); [|reflexivity].
  destruct (find _ (product st)) as [prod|]; [|reflexivity].
  destruct (pd_file_url prod) as [[|c url]|]; reflexivity.
Qed.

(** [resolve_download] only reads: whatever it returns or raises, the
    store it ends with is the store it started from. *)
Lemma resolve_download_store (env : Env) (token : string) (st : Store) :
  snd (resolve_download env token st) = st.
Proof.
  rewrite resolve_download_stored_link.
  destruct (stored_link st token) as [link|]; [|reflexivity].
  destruct (check_expiry env link); [|reflexivity].
  now rewrite resolve_file_url_cases.
Qed.

(** The expiry check in terms of the timestamp the link stands for. *)
Lemma check_expiry_cases (env : Env) (link : LinkDoc) :
  check_expiry env link
  = match expiry_of link with
    | Some e =>
        if now_utc env >? e then Raise (HTTPException 410 "Link expired")
        else Return tt
    | None =>
        match ld_expires_at link with
        | Some (PyStr s) => if String.eqb s "" then Return tt else Raise TypeError
        | _ => Return tt
        end
    end.
Proof.
  unfold check_expiry, expiry_of.
  destruct (ld_expires_at link) as [[|s|d]|]; try reflexivity.
  now destruct (fromisoformat s).
Qed.

Lemma stored_link_None (st : Store) (token : string) :
  (forall link, In link (all_links st) -> ld_token link <> token) ->
  stored_link st token = None.
Proof.
  intros H. unfold stored_link.
  destruct (find (holds_token token) (all_links st)) as [link|] eqn:E; [|reflexivity].
  apply find_some in E as [Hin Htok]. apply String.eqb_eq in Htok.
  now destruct (H link Hin).
Qed.

Lemma stored_link_Some (st : Store) (token : string) :
  (exists link, In link (all_links st) /\ ld_token link = token) ->
  exists link, stored_link st token = Some link /\
               In link (all_links st) /\ ld_token link = token.
Proof.
  intros (l & Hin & Htok). unfold stored_link.
  destruct (find (holds_token token) (all_links st)) as [link|] eqn:E.
  - exists link. apply find_some in E as [Hin' Htok'].
    apply String.eqb_eq in Htok'. now repeat split.
  - apply (find_none _ _ E) in Hin. unfold holds_token in Hin.
    apply String.eqb_neq in Hin. contradiction.
Qed.

(** C2 (as amended): when the token matches a link that has not expired
    and the link's product exists with an empty or absent [file_url],
    [resolve_download] fails with HTTP 404 and the detail "File not
    available for this product".  The status is the 404 that a missing
    token and a missing product are answered with; the detail text is what
    sets the error apart from theirs. *)
Theorem resolve_download_file_unavailable (env : Env) (st : Store) (token : string)
    (link : LinkDoc) (e : datetime) (prod : ProductDoc) :
  stored_link st token = Some link ->
  expiry_of link = Some e ->
  now_utc env <= e ->
  lookup_product st (ld_product_id link) = Some prod ->
  pd_file_url prod = None \/ pd_file_url prod = Some "" ->
  exists ex,
    resolve_download env token st = (Raise ex, st) /\
    ex = HTTPException 404 "File not available for this product" /\
    http_status ex = http_status (HTTPException 404 "Invalid token") /\
    http_status ex = http_status (HTTPException 404 "Product not found") /\
    ex <> HTTPException 404 "Invalid token" /\
    ex <> HTTPException 404 "Product not found".
Proof.
  intros Hlink He Hnow Hprod Hurl.
  exists (HTTPException 404 "File not available for this product").
  split; [|repeat split; discriminate].
  rewrite resolve_download_stored_link, Hlink, check_expiry_cases, He.
  destruct (now_utc env >? e) eqn:Hgt; [lia|].
  rewrite resolve_file_url_cases, Hprod.
  unfold lookup_product in Hprod.
  destruct (ObjectId_of_str (ld_product_id link)); [|discriminate].
  now destruct Hurl as [-> | ->].
Qed.

(** C5: a token carried by stored links, resolved strictly after the
    expiry of the link (of each link, should several carry it), fails with
    "Link expired", HTTP 410; a token that no stored order's
    [download_links] carries fails with "Invalid token", HTTP 404; and the
    two statuses differ. *)
Theorem resolve_download_expired_or_unknown (env : Env) (st : Store) (token : string) :
  ((exists link, In link (all_links st) /\ ld_token link = token) ->
   (forall link, In link (all_links st) -> ld_token link = token ->
      exists e, expiry_of link = Some e /\ e < now_utc env) ->
   resolve_download env token st = (Raise (HTTPException 410 "Link expired"), st)) /\
  ((forall link, In link (all_links st) -> ld_token link <> token) ->
   resolve_download env token st = (Raise (HTTPException 404 "Invalid token"), st)) /\
  http_status (HTTPException 410 "Link expired") = 410 /\
  http_status (HTTPException 404 "Invalid token") = 404.
Proof.
  repeat split.
  - intros Hheld Hpast.
    destruct (stored_link_Some _ _ Hheld) as (link & Hlink & Hin & Htok).
    destruct (Hpast link Hin Htok) as (e & He & Hlt).
    rewrite resolve_download_stored_link, Hlink, check_expiry_cases, He.
    destruct (now_utc env >? e) eqn:Hgt; [reflexivity|lia].
  - intros Hnone.
    now rewrite resolve_download_stored_link, (stored_link_None _ _ Hnone).
Qed.

(** C7: [resolve_download] leaves the store as it found it, whatever the
    token and whatever the outcome, so nothing is created, changed, deleted
    or used up; and a second call, made on the store the first one left and
    like the first one before the link's expiry, gives the same result as
    the first. *)
Theorem resolve_download_idempotent (env1 env2 : Env) (st : Store) (token : string) :
  snd (resolve_download env1 token st) = st /\
  (expired env1 st token = false ->
   expired env2 st token = false ->
   resolve_download env2 token (snd (resolve_download env1 token st))
   = resolve_download env1 token st).
Proof.
  split; [apply resolve_download_store|].
  rewrite resolve_download_store. unfold expired.
  rewrite !resolve_download_stored_link.
  destruct (stored_link st token) as [link|]; [|reflexivity].
  rewrite !check_expiry_cases.
  destruct (expiry_of link) as [e|]; [|reflexivity].
  now intros -> ->.
Qed.

(** A link whose [expires_at] is absent, null, or a string that does not
    parse never raises "Link expired"; and when it is absent, null or the
    empty string, the check lets the link through. *)
Lemma check_expiry_without_timestamp (env : Env) (link : LinkDoc) :
  expiry_of link = None ->
  check_expiry env link <> Raise (HTTPException 410 "Link expired") /\
  (ld_expires_at link = None \/ ld_expires_at link = Some PyNone \/
   ld_expires_at link = Some (PyStr "") ->
   check_expiry env link = Return tt).
Proof.
  intros He. rewrite check_expiry_cases, He. split.
  - destruct (ld_expires_at link) as [[|s|d]|]; try discriminate.
    destruct (String.eqb s ""); discriminate.
  - now intros [-> | [-> | ->]].
Qed.

(** A non-empty string that does not parse stays a [str], and calling
    [.replace(tzinfo=...)] on it is a [TypeError]: the request fails before
    the product is looked at. *)
Lemma resolve_download_text_expiry (env : Env) (st : Store) (token : string)
    (link : LinkDoc) (s : string) :
  stored_link st token = Some link ->
  ld_expires_at link = Some (PyStr s) ->
  fromisoformat s = None ->
  s <> "" ->
  resolve_download env token st = (Raise TypeError, st).
Proof.
  intros Hlink Hs Hparse Hne.
  rewrite resolve_download_stored_link, Hlink, check_expiry_cases.
  unfold expiry_of. rewrite Hs, Hparse.
  apply String.eqb_neq in Hne. now rewrite Hne.
Qed.

(** C10 (as amended): a [product_id] that is not a well-formed ObjectId
    makes the lookup raise the ValueError "Invalid ObjectId", which is not
    the 404 of a missing product but an unhandled exception (HTTP 500).
    [create_order] raises it, writing nothing, when the item is the first
    one of the cart that refers to no product; [resolve_download] raises it
    when the token's link has passed the expiry check and the product is
    re-fetched. *)
Theorem invalid_ObjectId_raises_ValueError :
  (forall (env : Env) (payload : OrderIn) (st : Store)
          (pre post : list CartItem) (item : CartItem),
      items payload = (pre ++ item :: post)%list ->
      forallb (refers_to_product st) pre = true ->
      ObjectId_of_str (product_id item) = None ->
      create_order env payload st = (Raise (ValueError "Invalid ObjectId"), st)) /\
  (forall (env : Env) (st : Store) (token : string) (link : LinkDoc),
      stored_link st token = Some link ->
      check_expiry env link = Return tt ->
      ObjectId_of_str (ld_product_id link) = None ->
      resolve_download env token st = (Raise (ValueError "Invalid ObjectId"), st)) /\
  http_status (ValueError "Invalid ObjectId") = 500.
Proof.
  repeat split.
  - intros env payload st pre post item Hitems Hpre Hid.
    rewrite (create_order_unknown env payload st pre post item Hitems Hpre).
    + unfold unknown_product_error. now rewrite Hid.
    + unfold lookup_product. now rewrite Hid.
  - intros env st token link Hlink Hcheck Hid.
    now rewrite resolve_download_stored_link, Hlink, Hcheck,
      resolve_file_url_cases, Hid.
Qed.

End ResolveDownload.

(* ===================================================================== *)
(** * Requests replayed on the shop                                       *)
(* ===================================================================== *)

Section Replay.
#[local] Existing Instance cpython.
Import Shop.

(** Case analysis on the membership of a link in a concrete store. *)
Ltac each_link H :=
  cbn in H;
  repeat match type of H with
         | _ \/ _ => destruct H as [H|H]
         | False => destruct H
         end.

(** The spec's scenario: an ebook at 9.99, bought twice, costs 19.98. *)
Example two_ebooks_placed :
  post_api_orders env two_ebooks catalog
  = (Return two_ebooks_order, insert_order catalog two_ebooks_doc).
Proof. reflexivity. Qed.

(** An empty name, or an empty email, with a cart that is fine. *)
Example empty_name_is_accepted :
  post_api_orders env {| customer_name := ""; customer_email := "ada@example.org";
                         items := [line ebook_id 2] |} catalog
  = (Return {| o_id := o_id two_ebooks_order;
               o_status := "paid";
               o_amount := price 1998;
               o_items := [line ebook_id 2];
               o_customer_name := "";
               o_customer_email := "ada@example.org";
               o_download_links := o_download_links two_ebooks_order;
               o_created_at := noon + 1 |},
     insert_order catalog
       {| od_id := od_id two_ebooks_doc;
          od_created_at := Some (noon + 1);
          od_data := {| od_status := "paid";
                        od_amount := price 1998;
                        od_items := [line ebook_id 2];
                        od_customer_name := "";
                        od_customer_email := "ada@example.org";
                        od_download_links :=
                          od_download_links (od_data two_ebooks_doc) |} |}).
Proof. reflexivity. Qed.

Example empty_email_is_accepted :
  post_api_orders env {| customer_name := "Ada"; customer_email := "";
                         items := [line ebook_id 2] |} catalog
  = (Return {| o_id := o_id two_ebooks_order;
               o_status := "paid";
               o_amount := price 1998;
               o_items := [line ebook_id 2];
               o_customer_name := "Ada";
               o_customer_email := "";
               o_download_links := o_download_links two_ebooks_order;
               o_created_at := noon + 1 |},
     insert_order catalog
       {| od_id := od_id two_ebooks_doc;
          od_created_at := Some (noon + 1);
          od_data := {| od_status := "paid";
                        od_amount := price 1998;
                        od_items := [line ebook_id 2];
                        od_customer_name := "Ada";
                        od_customer_email := "";
                        od_download_links :=
                          od_download_links (od_data two_ebooks_doc) |} |}).
Proof. reflexivity. Qed.

(** C1, counterexample: the claim has every request with an empty [items]
    list, or an empty [customer_name] or [customer_email], fail and leave
    the store alone.  The request with all three empty does not fail: it is
    answered with an order, and the store has a new document. *)
Lemma blank_order_is_accepted :
  ~ (forall (env : Env) (body : OrderIn) (st : Store),
        items body = [] \/ customer_name body = "" \/ customer_email body = "" ->
        exists ex, post_api_orders env body st = (Raise ex, st)).
Proof.
  intros H. destruct (H env blank catalog (or_introl eq_refl)) as [ex Hex].
  discriminate Hex.
Qed.

Lemma post_api_orders_refuses_quantity_only_witness :
  post_api_orders env (cart [line ebook_id 1; line ebook_id 51]) catalog
  = (Raise RequestValidationError, catalog).
Proof.
  pose proof (post_api_orders_refuses_quantity_only env
                (cart [line ebook_id 1; line ebook_id 51]) catalog) as [Hiff Hst].
  assert (Hfst : fst (post_api_orders env (cart [line ebook_id 1; line ebook_id 51]) catalog)
                 = Raise RequestValidationError).
  { apply Hiff. exists (line ebook_id 51). split; [cbn; auto|cbn; lia]. }
  specialize (Hst Hfst).
  destruct (post_api_orders env (cart [line ebook_id 1; line ebook_id 51]) catalog)
    as [r st']. cbn [fst snd] in Hfst, Hst. now rewrite Hfst, Hst.
Defined.

(** C3, counterexample: the claim has every cart with an item that refers
    to no product fail with the 404 of a missing product.  A cart whose
    only item has a [product_id] that is no ObjectId fails with something
    else. *)
Lemma malformed_product_id_is_not_404 :
  ~ (forall (env : Env) (payload : OrderIn) (st : Store),
        (exists item, In item (items payload) /\
                      lookup_product st (product_id item) = None) ->
        exists detail,
          create_order env payload st = (Raise (HTTPException 404 detail), st)).
Proof.
  intros H. destruct (H env (cart [line "ebook" 1]) catalog) as [detail Hd].
  - exists (line "ebook" 1). split; [now left|reflexivity].
  - discriminate Hd.
Qed.

Lemma create_order_unknown_product_witness :
  (exists item, In item (items (cart [line ebook_id 1; line gone_id 2; line "ebook" 1])) /\
                lookup_product catalog (product_id item) = None) /\
  exists pre item post,
    items (cart [line ebook_id 1; line gone_id 2; line "ebook" 1])
    = (pre ++ item :: post)%list /\
    forallb (refers_to_product catalog) pre = true /\
    lookup_product catalog (product_id item) = None /\
    create_order env (cart [line ebook_id 1; line gone_id 2; line "ebook" 1]) catalog
    = (Raise match ObjectId_of_str (product_id item) with
             | Some _ => HTTPException 404 ("Product not found: " ++ product_id item)
             | None => ValueError "Invalid ObjectId"
             end, catalog).
Proof.
  assert (Hex : exists item,
             In item (items (cart [line ebook_id 1; line gone_id 2; line "ebook" 1])) /\
             lookup_product catalog (product_id item) = None).
  { exists (line gone_id 2). split; [cbn; auto|reflexivity]. }
  split; [exact Hex|].
  exact (create_order_unknown_product env _ catalog Hex).
Defined.

(** The cart of the witness fails at its second item, the first one that
    refers to no product, and names it. *)
Example unknown_product_is_named :
  create_order env (cart [line ebook_id 1; line gone_id 2; line "ebook" 1]) catalog
  = (Raise (HTTPException 404 "Product not found: 65f0a1b2c3d4e5f6a7b8c9d2"), catalog).
Proof. reflexivity. Qed.


Lemma post_api_orders_paid_with_links_witness :
  post_api_orders env two_ebooks catalog
  = (Return two_ebooks_order, insert_order catalog two_ebooks_doc) /\
  o_status two_ebooks_order = "paid" /\
  List.length (o_download_links two_ebooks_order) = List.length (items two_ebooks) /\
  map dl_product_id (o_download_links two_ebooks_order)
  = map product_id (items two_ebooks) /\
  Forall (fun dl => dl_expires_at dl = now_utc env + timedelta_days 7)
         (o_download_links two_ebooks_order).
Proof.
  assert (H : post_api_orders env two_ebooks catalog
              = (Return two_ebooks_order, insert_order catalog two_ebooks_doc)).
  { reflexivity. }
  split; [exact H|].
  exact (post_api_orders_paid_with_links env two_ebooks catalog _ _ H).
Defined.

Lemma post_api_orders_empty_cart_witness :
  items blank = [] /\
  round2 f_zero = f_zero /\
  fresh_id (env_after 1) shop /\
  post_api_orders (env_after 1) blank shop
  = (Return {| o_id := "65f0a1b2c3d4e5f6a7b8c9e1";
               o_status := "paid";
               o_amount := 0%float;
               o_items := [];
               o_customer_name := "";
               o_customer_email := "";
               o_download_links := [];
               o_created_at := noon + timedelta_days 1 + 1 |},
     insert_order shop
       {| od_id := "65f0a1b2c3d4e5f6a7b8c9e1";
          od_created_at := Some (noon + timedelta_days 1 + 1);
          od_data := {| od_status := "paid";
                        od_amount := 0%float;
                        od_items := [];
                        od_customer_name := "";
                        od_customer_email := "";
                        od_download_links := [] |} |}).
Proof.
  assert (Hround : round2 f_zero = f_zero) by reflexivity.
  assert (Hfresh : fresh_id (env_after 1) shop).
  { intros Hin. cbn in Hin. destruct Hin as [Hin|[Hin|[]]]; discriminate Hin. }
  refine (conj eq_refl (conj Hround (conj Hfresh _))).
  exact (post_api_orders_empty_cart (env_after 1) blank shop eq_refl Hround Hfresh).
Defined.

(** C2, counterexample: the claim has the error for a product without a
    file differ from NotFound.  The token of the draft, which has no file,
    is answered with status 404, the status of NotFound. *)
Lemma file_unavailable_has_status_404 :
  ~ (forall (env : Env) (st : Store) (token : string) (link : LinkDoc)
            (e : datetime) (prod : ProductDoc),
        stored_link st token = Some link ->
        expiry_of link = Some e ->
        now_utc env <= e ->
        lookup_product st (ld_product_id link) = Some prod ->
        pd_file_url prod = None \/ pd_file_url prod = Some "" ->
        exists ex, resolve_download env token st = (Raise ex, st) /\
                   http_status ex <> 404).
Proof.
  intros H.
  destruct (H env shop "tok-draft"
              (link draft_id "tok-draft" (Some (PyDatetime (noon + timedelta_days 7))))
              (noon + timedelta_days 7) draft)
    as (ex & Hex & Hstatus); try reflexivity.
  - discriminate.
  - now left.
  - injection Hex as <-. now apply Hstatus.
Qed.

Lemma resolve_download_file_unavailable_witness :
  stored_link shop "tok-draft"
  = Some (link draft_id "tok-draft" (Some (PyDatetime (noon + timedelta_days 7)))) /\
  now_utc env <= noon + timedelta_days 7 /\
  lookup_product shop draft_id = Some draft /\
  pd_file_url draft = None /\
  exists ex,
    resolve_download env "tok-draft" shop = (Raise ex, shop) /\
    ex = HTTPException 404 "File not available for this product" /\
    http_status ex = http_status (HTTPException 404 "Invalid token") /\
    http_status ex = http_status (HTTPException 404 "Product not found") /\
    ex <> HTTPException 404 "Invalid token" /\
    ex <> HTTPException 404 "Product not found".
Proof.
  assert (Hnow : now_utc env <= noon + timedelta_days 7) by discriminate.
  refine (conj eq_refl (conj Hnow (conj eq_refl (conj eq_refl _)))).
  exact (resolve_download_file_unavailable env shop "tok-draft"
           (link draft_id "tok-draft" (Some (PyDatetime (noon + timedelta_days 7))))
           (noon + timedelta_days 7) draft
           eq_refl eq_refl Hnow eq_refl (or_introl eq_refl)).
Defined.

Lemma resolve_download_expired_or_unknown_witness :
  resolve_download (env_after 8) "tok-ebook" shop
  = (Raise (HTTPException 410 "Link expired"), shop) /\
  resolve_download (env_after 8) "tok-iso" shop
  = (Raise (HTTPException 410 "Link expired"), shop) /\
  resolve_download env "0sJ3yTq1mWcB8fKpVn4Zx2LdRu6HgAeY" shop
  = (Raise (HTTPException 404 "Invalid token"), shop).
Proof.
  refine (conj _ (conj _ _)).
  - apply (proj1 (resolve_download_expired_or_unknown (env_after 8) shop "tok-ebook")).
    + eexists. split; [left; reflexivity|reflexivity].
    + intros l Hin Htok. each_link Hin; subst l; try discriminate Htok.
      exists (noon + timedelta_days 7). split; reflexivity.
  - apply (proj1 (resolve_download_expired_or_unknown (env_after 8) shop "tok-iso")).
    + eexists. split; [do 3 right; left; reflexivity|reflexivity].
    + intros l Hin Htok. each_link Hin; subst l; try discriminate Htok.
      exists (noon + timedelta_days 7). split; reflexivity.
  - apply (proj1 (proj2 (resolve_download_expired_or_unknown env shop
                           "0sJ3yTq1mWcB8fKpVn4Zx2LdRu6HgAeY"))).
    intros l Hin. each_link Hin; subst l; discriminate.
Defined.

Lemma resolve_download_idempotent_witness :
  expired env shop "tok-ebook" = false /\
  expired (env_after 1) shop "tok-ebook" = false /\
  snd (resolve_download env "tok-ebook" shop) = shop /\
  resolve_download (env_after 1) "tok-ebook" (snd (resolve_download env "tok-ebook" shop))
  = resolve_download env "tok-ebook" shop.
Proof.
  refine (conj eq_refl (conj eq_refl (conj _ _))).
  - exact (proj1 (resolve_download_idempotent env (env_after 1) shop "tok-ebook")).
  - exact (proj2 (resolve_download_idempotent env (env_after 1) shop "tok-ebook")
             eq_refl eq_refl).
Defined.

(** The two calls of the witness both return the ebook's file. *)
Example resolve_download_ebook :
  fst (resolve_download env "tok-ebook" shop)
  = Return {| r_product := serialize_doc ebook;
              r_file_url := "https://x/e.pdf";
              r_message := download_message |}.
Proof. reflexivity. Qed.

(** C9, the failing input: a link whose [expires_at] is the string "next
    week".  The string does not parse, the [except] branch leaves it in
    place, and the comparison then calls [.replace(tzinfo=...)] on a [str]:
    the request ends in a [TypeError], HTTP 500, at any time, instead of
    going on to the product. *)
Theorem resolve_download_text_expiry_TypeError :
  stored_link shop "tok-text"
  = Some (link ebook_id "tok-text" (Some (PyStr "next week"))) /\
  fromisoformat "next week" = None /\
  (forall env : Env,
      resolve_download env "tok-text" shop = (Raise TypeError, shop)) /\
  http_status TypeError = 500.
Proof.
  refine (conj eq_refl (conj eq_refl (conj _ eq_refl))). intros env0.
  apply (resolve_download_text_expiry env0 shop "tok-text"
           (link ebook_id "tok-text" (Some (PyStr "next week"))) "next week");
    [reflexivity|reflexivity|reflexivity|discriminate].
Qed.

(** The links of the same order whose [expires_at] is null or missing are
    let through, however late the request. *)
Example resolve_download_null_expiry :
  fst (resolve_download (env_after 10000) "tok-null" shop)
  = fst (resolve_download env "tok-ebook" shop) /\
  fst (resolve_download (env_after 10000) "tok-bare" shop)
  = fst (resolve_download env "tok-ebook" shop).
Proof. split; reflexivity. Qed.

(** C10, counterexample: the claim has every cart with a malformed
    [product_id] end in the ValueError.  When a well-formed id without a
    product comes first in the cart, the request ends in the 404 of that
    item instead. *)
Lemma malformed_product_id_behind_unknown_one :
  ~ (forall (env : Env) (payload : OrderIn) (st : Store) (item : CartItem),
        In item (items payload) ->
        ObjectId_of_str (product_id item) = None ->
        create_order env payload st = (Raise (ValueError "Invalid ObjectId"), st)).
Proof.
  intros H.
  specialize (H env (cart [line gone_id 1; line "ebook" 1]) catalog (line "ebook" 1)).
  discriminate H; [now right; left|reflexivity].
Qed.

Lemma invalid_ObjectId_raises_ValueError_witness :
  create_order env (cart [line ebook_id 1; line "ebook" 1; line gone_id 1]) catalog
  = (Raise (ValueError "Invalid ObjectId"), catalog) /\
  resolve_download env "tok-slug" shop
  = (Raise (ValueError "Invalid ObjectId"), shop).
Proof.
  split.
  - exact (proj1 invalid_ObjectId_raises_ValueError env
             (cart [line ebook_id 1; line "ebook" 1; line gone_id 1]) catalog
             [line ebook_id 1] [line gone_id 1] (line "ebook" 1)
             eq_refl eq_refl eq_refl).
  - exact (proj1 (proj2 invalid_ObjectId_raises_ValueError) env shop "tok-slug"
             (link "ebook" "tok-slug" (Some (PyDatetime (noon + timedelta_days 7))))
             eq_refl eq_refl eq_refl).
Defined.

End Replay.

(* ===================================================================== *)
(** * [get_order], and requests that follow one another                   *)
(* ===================================================================== *)

Section Composition.
Context {rt : Runtime} {fo : FloatOrder rt}.

(** [get_order], by cases. *)
Lemma get_order_cases (env : Env) (order_id : string) (st : Store) :
  get_order env order_id st
  = (match ObjectId_of_str order_id with
     | None => Raise (ValueError "Invalid ObjectId")
     | Some oid =>
         match find (fun d => ObjectId_eqb (od_id d) oid) (order st) with
         | None => Raise (HTTPException 404 "Order not found")
         | Some doc => Order_of_doc (response_time env) doc
         end
     end, st).
Proof.
  unfold get_order, bind, lift, PyObjectId_validate, find_one_order, raise.
  destruct (ObjectId_of_str order_id) as [oid|]; [|reflexivity].
  now destruct (find _ (order st)).
Qed.

Lemma find_order_None (oid : ObjectId) (docs : list OrderDoc) :
  ~ In oid (map od_id docs) ->
  find (fun d => ObjectId_eqb (od_id d) oid) docs = None.
Proof.
  intros Hnot. destruct (find _ docs) as [d|] eqn:E; [|reflexivity].
  apply find_some in E as [Hin Heq]. apply ObjectId_eqb_eq in Heq.
  exfalso. apply Hnot. rewrite <- Heq. now apply in_map.
Qed.

(** X1: [get_order] on an id that names no stored order fails and leaves
    the store as it was: with the ValueError of [PyObjectId.validate] when
    the id is not a well-formed ObjectId, and with the 404 "Order not
    found" when it is well formed and no order carries it. *)
Theorem get_order_unknown (env : Env) (order_id : string) (st : Store) :
  (ObjectId_of_str order_id = None ->
   get_order env order_id st = (Raise (ValueError "Invalid ObjectId"), st)) /\
  (forall oid, ObjectId_of_str order_id = Some oid ->
               ~ In oid (map od_id (order st)) ->
               get_order env order_id st
               = (Raise (HTTPException 404 "Order not found"), st)).
Proof.
  split.
  - intros Hid. now rewrite get_order_cases, Hid.
  - intros oid Hid Hnot. now rewrite get_order_cases, Hid, find_order_None.
Qed.

(** What a successful [POST /api/orders] says about the store it ran on
    and the document it left. *)
Lemma post_api_orders_Return_doc (env : Env) (body : OrderIn) (st st' : Store)
    (o : Order) :
  post_api_orders env body st = (Return o, st') ->
  exists total,
    OrderIn_ok body = true /\
    forallb (refers_to_product st) (items body) = true /\
    fresh_id env st /\
    Order_of_doc (response_time env) (placed_order_doc env body total) = Return o /\
    st' = insert_order st (placed_order_doc env body total).
Proof.
  unfold post_api_orders. destruct (OrderIn_ok body) eqn:Hok; [|discriminate].
  destruct (forallb (refers_to_product st) (items body)) eqn:Hknown.
  - destruct (existsb (fun d => ObjectId_eqb (od_id d) (inserted_id env)) (order st))
      eqn:Hid.
    + rewrite create_order_duplicate; [discriminate|assumption|].
      rewrite fresh_id_existsb, Hid. discriminate.
    + destruct (all_known_products _ _ Hknown) as [prods Hprods].
      apply fresh_id_existsb in Hid. rewrite (create_order_known _ _ _ _ Hprods Hid).
      intros [= Ho <-]. now exists (cart_sum (combine (items body) prods)).
  - destruct (first_unknown_product _ _ Hknown) as (pre & item & post & H1 & H2 & H3).
    rewrite (create_order_unknown _ _ _ _ _ _ H1 H2 H3). discriminate.
Qed.

(** A document with a [created_at] is turned into the same [Order]
    whatever the clock says when the response is built. *)
Lemma Order_of_doc_created_at (t1 t2 : datetime) (doc : OrderDoc) (d : datetime) :
  od_created_at doc = Some d ->
  Order_of_doc t1 doc = Order_of_doc t2 doc.
Proof. intros H. unfold Order_of_doc. now rewrite H. Qed.

(** X2: an order just placed can be read back.  When [POST /api/orders]
    has returned an order, [get_order] with the returned [id], on the store
    the request left and at any later time, returns that very order and
    changes nothing.  (The id's string form has to parse back to the id.) *)
Theorem get_order_returns_placed_order (env env' : Env) (body : OrderIn)
    (st st' : Store) (o : Order) :
  post_api_orders env body st = (Return o, st') ->
  ObjectId_of_str (str_of_ObjectId (inserted_id env)) = Some (inserted_id env) ->
  get_order env' (o_id o) st' = (Return o, st').
Proof.
  intros Hpost Hstr.
  destruct (post_api_orders_Return_doc _ _ _ _ _ Hpost)
    as (total & _ & _ & Hfresh & Ho & ->).
  assert (Hid : o_id o = str_of_ObjectId (inserted_id env)).
  { destruct (Order_of_placed_doc env body total) as (dls & _ & _ & _ & Hdoc).
    rewrite Ho in Hdoc. destruct (OrderIn_ok body); [|discriminate].
    now injection Hdoc as ->. }
  rewrite get_order_cases, Hid, Hstr. unfold insert_order. cbn [order].
  apply fresh_id_existsb in Hfresh.
  pose proof (find_inserted (order st) (placed_order_doc env body total) Hfresh) as Hfind.
  cbn [od_id placed_order_doc] in Hfind. rewrite Hfind.
  rewrite (Order_of_doc_created_at _ (response_time env) _ (insert_time env));
    [now rewrite Ho|reflexivity].
Qed.

Lemma not_fresh_id (env : Env) (st : Store) :
  ~ fresh_id env st -> In (inserted_id env) (map od_id (order st)).
Proof.
  intros Hdup.
  destruct (existsb (fun d => ObjectId_eqb (od_id d) (inserted_id env)) (order st))
    eqn:Hid.
  - apply existsb_exists in Hid as (d & Hin & Heq). apply ObjectId_eqb_eq in Heq.
    rewrite <- Heq. now apply in_map.
  - apply fresh_id_existsb in Hid. now destruct (Hdup Hid).
Qed.

(** How [POST /api/orders] can fail. *)
Lemma post_api_orders_Raise_cases (env : Env) (body : OrderIn) (st st' : Store)
    (e : exn) :
  post_api_orders env body st = (Raise e, st') ->
  st' = st /\
  ((e = RequestValidationError /\ OrderIn_ok body = false) \/
   (exists item, In item (items body) /\
                 lookup_product st (product_id item) = None /\
                 e = unknown_product_error item) \/
   (e = DuplicateKeyError /\ ~ fresh_id env st)).
Proof.
  unfold post_api_orders. destruct (OrderIn_ok body) eqn:Hok.
  - destruct (forallb (refers_to_product st) (items body)) eqn:Hknown.
    + destruct (existsb (fun d => ObjectId_eqb (od_id d) (inserted_id env)) (order st))
        eqn:Hid.
      * assert (Hdup : ~ fresh_id env st)
          by (rewrite fresh_id_existsb, Hid; discriminate).
        rewrite (create_order_duplicate _ _ _ Hknown Hdup).
        intros [= <- <-]. split; [reflexivity|]. right. right. now split.
      * destruct (all_known_products _ _ Hknown) as [prods Hprods].
        apply fresh_id_existsb in Hid. rewrite (create_order_known _ _ _ _ Hprods Hid).
        destruct (Order_of_placed_doc env body
                    (cart_sum (combine (items body) prods))) as (dls & _ & _ & _ & ->).
        rewrite Hok. discriminate.
    + destruct (first_unknown_product _ _ Hknown) as (pre & item & post & H1 & H2 & H3).
      rewrite (create_order_unknown _ _ _ _ _ _ H1 H2 H3).
      intros [= <- <-]. split; [reflexivity|]. right. left.
      exists item. repeat split; [|assumption].
      rewrite H1. apply in_elt.
  - intros [= <- <-]. split; [reflexivity|]. now left.
Qed.

(** X3: [POST /api/orders] is all or nothing.  Whenever the request fails,
    the store is exactly as it was, and the failure is one of three: the
    422 of a body with a quantity outside [1, 50]; the error of an item
    that refers to no product (the 404 naming its id, or the ValueError of
    a malformed id); or the store refusing an [_id] that is in use. *)
Theorem post_api_orders_all_or_nothing (env : Env) (body : OrderIn) (st st' : Store)
    (e : exn) :
  post_api_orders env body st = (Raise e, st') ->
  st' = st /\
  ((e = RequestValidationError /\
    exists item, In item (items body) /\ (quantity item < 1 \/ 50 < quantity item)) \/
   (exists item, In item (items body) /\
                 lookup_product st (product_id item) = None /\
                 e = match ObjectId_of_str (product_id item) with
                     | Some _ =>
                         HTTPException 404 ("Product not found: " ++ product_id item)
                     | None => ValueError "Invalid ObjectId"
                     end) \/
   (e = DuplicateKeyError /\ In (inserted_id env) (map od_id (order st)))).
Proof.
  intros H. apply post_api_orders_Raise_cases in H as [-> H].
  split; [reflexivity|]. destruct H as [[-> Hok]|[H|[-> Hdup]]].
  - left. split; [reflexivity|]. now apply OrderIn_ok_false.
  - right. left. exact H.
  - right. right. split; [reflexivity|].
    now apply not_fresh_id.
Qed.

Lemma all_links_insert_order (st : Store) (doc : OrderDoc) :
  all_links (insert_order st doc)
  = (all_links st ++ od_download_links (od_data doc))%list.
Proof.
  unfold all_links, insert_order. cbn [order].
  rewrite flat_map_app. cbn [flat_map]. now rewrite app_nil_r.
Qed.

(** A later order document does not come between a token and the link
    that already carried it. *)
Lemma stored_link_insert_order (st : Store) (doc : OrderDoc) (token : string)
    (link : LinkDoc) :
  stored_link st token = Some link ->
  stored_link (insert_order st doc) token = Some link.
Proof.
  unfold stored_link. rewrite all_links_insert_order, find_app. now intros ->.
Qed.

Lemma resolve_file_url_insert_order (link : LinkDoc) (st : Store) (doc : OrderDoc) :
  resolve_file_url link (insert_order st doc)
  = (fst (resolve_file_url link st), insert_order st doc).
Proof. now rewrite !resolve_file_url_cases. Qed.

(** The token drawn for the item at position [k] finds the link minted
    for that item, when no earlier draw of the request gave the same
    token. *)
Lemma find_minted (env : Env) (e : datetime) (its : list CartItem) :
  forall (k0 k : nat) (item : CartItem),
    nth_error its k = Some item ->
    (forall j, (j < k)%nat ->
               token_urlsafe env (k0 + j) <> token_urlsafe env (k0 + k)) ->
    find (holds_token (token_urlsafe env (k0 + k))) (mint_links env e k0 its)
    = Some {| ld_product_id := product_id item;
              ld_token := token_urlsafe env (k0 + k);
              ld_expires_at := Some (PyDatetime e) |}.
Proof.
  induction its as [|x its IH]; intros k0 k item Hk Hnew.
  - now destruct k.
  - destruct k as [|k]; cbn in Hk; cbn [mint_links find].
    + injection Hk as ->. rewrite Nat.add_0_r.
      unfold holds_token at 1. cbn [ld_token]. now rewrite String.eqb_refl.
    + assert (H0 : token_urlsafe env k0 <> token_urlsafe env (k0 + S k)).
      { specialize (Hnew 0%nat (Nat.lt_0_succ k)). now rewrite Nat.add_0_r in Hnew. }
      unfold holds_token at 1. cbn [ld_token].
      apply String.eqb_neq in H0. rewrite H0.
      replace (k0 + S k)%nat with (S k0 + k)%nat by lia.
      apply IH; [exact Hk|]. intros j Hj.
      replace (S k0 + j)%nat with (k0 + S j)%nat by lia.
      replace (S k0 + k)%nat with (k0 + S k)%nat by lia.
      apply Hnew. lia.
Qed.

Lemma nth_error_tokens (f : nat -> string) (dls : list DownloadLink) :
  forall (k0 n j : nat) (dl : DownloadLink),
    map dl_token dls = map f (seq k0 n) ->
    nth_error dls j = Some dl ->
    dl_token dl = f (k0 + j)%nat.
Proof.
  induction dls as [|d dls IH]; intros k0 n j dl Hmap Hj.
  - now destruct j.
  - destruct n as [|n]; [discriminate|]. cbn in Hmap. injection Hmap as Hd Hmap.
    destruct j as [|j]; cbn in Hj.
    + injection Hj as <-. now rewrite Nat.add_0_r.
    + rewrite <- Nat.add_succ_comm. exact (IH (S k0) n j dl Hmap Hj).
Qed.

(** X4: a token handed out by [POST /api/orders] resolves to the file of
    the item it was minted for.  Take the link at position [k] of the
    returned order and the item at position [k] of the cart, whose product
    has a non-empty [file_url].  If the token is new (no link already in
    the store carries it, nor does an earlier link of this order), then
    [resolve_download] on the store the order left, at any time up to seven
    days after the order, returns that product and its [file_url]. *)
Theorem resolve_download_minted_token (env env' : Env) (body : OrderIn)
    (st st' : Store) (o : Order) (k : nat) (item : CartItem) (dl : DownloadLink)
    (prod : ProductDoc) (url : string) :
  post_api_orders env body st = (Return o, st') ->
  nth_error (items body) k = Some item ->
  nth_error (o_download_links o) k = Some dl ->
  (forall link, In link (all_links st) -> ld_token link <> dl_token dl) ->
  (forall j dl', (j < k)%nat -> nth_error (o_download_links o) j = Some dl' ->
                 dl_token dl' <> dl_token dl) ->
  now_utc env' <= now_utc env + timedelta_days 7 ->
  lookup_product st (product_id item) = Some prod ->
  pd_file_url prod = Some url ->
  url <> "" ->
  resolve_download env' (dl_token dl) st'
  = (Return {| r_product := serialize_doc prod;
               r_file_url := url;
               r_message := download_message |}, st').
Proof.
  intros Hpost Hitem Hdl Hstore Hearlier Hnow Hprod Hurl Hne.
  apply post_api_orders_Return in Hpost
    as (prods & dls & _ & Hpids & Htoks & _ & -> & ->).
  cbn [o_download_links] in Hdl, Hearlier.
  assert (Htok : dl_token dl = token_urlsafe env k)
    by exact (nth_error_tokens _ _ _ _ _ _ Htoks Hdl).
  assert (Hnew : forall j, (j < k)%nat ->
                           token_urlsafe env (0 + j) <> token_urlsafe env (0 + k)).
  { intros j Hj. cbn [Nat.add].
    destruct (nth_error dls j) as [dl'|] eqn:Hj'.
    - pose proof (nth_error_tokens _ _ _ _ _ _ Htoks Hj') as Hj''.
      cbn [Nat.add] in Hj''. rewrite <- Htok, <- Hj''.
      exact (Hearlier j dl' Hj Hj').
    - apply nth_error_None in Hj'.
      assert (Hk : (k < List.length dls)%nat)
        by (apply nth_error_Some; rewrite Hdl; discriminate).
      lia. }
  rewrite resolve_download_stored_link.
  unfold stored_link. rewrite all_links_insert_order, find_app.
  fold (stored_link st (dl_token dl)). rewrite (stored_link_None _ _ Hstore).
  cbn [placed_order_doc od_data od_download_links]. rewrite Htok.
  change k with (0 + k)%nat at 1.
  rewrite (find_minted env _ (items body) 0 k item Hitem Hnew).
  rewrite check_expiry_cases. cbn [expiry_of ld_expires_at].
  destruct (now_utc env' >? now_utc env + timedelta_days 7) eqn:Hgt; [lia|].
  rewrite resolve_file_url_insert_order, resolve_file_url_cases.
  cbn [ld_product_id fst]. rewrite Hprod. unfold lookup_product in Hprod.
  destruct (ObjectId_of_str (product_id item)); [|discriminate].
  rewrite Hurl. now destruct url.
Qed.

Lemma resolve_download_insert_order (env : Env) (token : string) (st : Store)
    (doc : OrderDoc) (link : LinkDoc) :
  stored_link st token = Some link ->
  resolve_download env token (insert_order st doc)
  = (fst (resolve_download env token st), insert_order st doc).
Proof.
  intros Hlink.
  rewrite !resolve_download_stored_link, Hlink,
    (stored_link_insert_order _ doc _ _ Hlink).
  destruct (check_expiry env link); [|reflexivity].
  apply resolve_file_url_insert_order.
Qed.

(** X5: placing an order never changes what an existing token resolves
    to.  Whatever a [POST /api/orders] does, a token that a stored link
    carried before the request resolves afterwards, at any given time, to
    what it would have resolved to without the request. *)
Theorem resolve_download_unaffected_by_order (env env' : Env) (body : OrderIn)
    (st st' : Store) (r : result Order) (token : string) :
  post_api_orders env body st = (r, st') ->
  (exists link, In link (all_links st) /\ ld_token link = token) ->
  resolve_download env' token st' = (fst (resolve_download env' token st), st').
Proof.
  intros Hpost Hheld.
  destruct (stored_link_Some _ _ Hheld) as (link & Hlink & _).
  destruct r as [o|e].
  - apply post_api_orders_Return_doc in Hpost as (total & _ & _ & _ & _ & ->).
    exact (resolve_download_insert_order _ _ _ _ _ Hlink).
  - apply post_api_orders_Raise_cases in Hpost as [-> _].
    rewrite <- (resolve_download_store env' token st) at 3.
    apply surjective_pairing.
Qed.

Lemma find_order_Some (oid : ObjectId) (docs : list OrderDoc) :
  In oid (map od_id docs) ->
  exists d, find (fun d => ObjectId_eqb (od_id d) oid) docs = Some d.
Proof.
  intros Hin. destruct (find _ docs) as [d|] eqn:E; [now exists d|].
  apply in_map_iff in Hin as (d & Hd & Hin).
  apply (find_none _ _ E) in Hin. rewrite Hd, ObjectId_eqb_refl in Hin. discriminate.
Qed.

(** X6: placing an order never changes what [get_order] returns for an
    order that was already stored. *)
Theorem get_order_unaffected_by_order (env env' : Env) (body : OrderIn)
    (st st' : Store) (r : result Order) (order_id : string) (oid : ObjectId) :
  post_api_orders env body st = (r, st') ->
  ObjectId_of_str order_id = Some oid ->
  In oid (map od_id (order st)) ->
  get_order env' order_id st' = (fst (get_order env' order_id st), st').
Proof.
  intros Hpost Hid Hin. destruct r as [o|e].
  - apply post_api_orders_Return_doc in Hpost as (total & _ & _ & _ & _ & ->).
    rewrite !get_order_cases, Hid. unfold insert_order. cbn [order fst].
    rewrite find_app. destruct (find_order_Some _ _ Hin) as [d ->]. reflexivity.
  - apply post_api_orders_Raise_cases in Hpost as [-> _].
    now rewrite !get_order_cases.
Qed.

(** X7: the errors of [resolve_download].  A failing request leaves the
    store as it was and ends in one of six errors: the 404s "Invalid
    token", "Product not found" and "File not available for this product",
    the 410 "Link expired", the ValueError of a malformed [product_id], or
    the TypeError of an [expires_at] string that does not parse.  The 404
    "Download not found" of the link search is never raised: the order is
    found by the token, so one of its links carries it. *)
Theorem resolve_download_errors (env : Env) (token : string) (st st' : Store)
    (e : exn) :
  resolve_download env token st = (Raise e, st') ->
  st' = st /\
  (e = HTTPException 404 "Invalid token" \/
   e = HTTPException 410 "Link expired" \/
   e = TypeError \/
   e = ValueError "Invalid ObjectId" \/
   e = HTTPException 404 "Product not found" \/
   e = HTTPException 404 "File not available for this product") /\
  e <> HTTPException 404 "Download not found".
Proof.
  intros H.
  assert (Hst : st' = st).
  { rewrite <- (resolve_download_store env token st). now rewrite H. }
  assert (Hcases :
            e = HTTPException 404 "Invalid token" \/
            e = HTTPException 410 "Link expired" \/
            e = TypeError \/
            e = ValueError "Invalid ObjectId" \/
            e = HTTPException 404 "Product not found" \/
            e = HTTPException 404 "File not available for this product").
  { rewrite resolve_download_stored_link in H.
    destruct (stored_link st token) as [link|]; [|injection H as <- _; tauto].
    rewrite check_expiry_cases in H.
    destruct (expiry_of link) as [t|].
    - destruct (now_utc env >? t); [injection H as <- _; tauto|].
      rewrite resolve_file_url_cases in H.
      destruct (ObjectId_of_str (ld_product_id link)); [|injection H as <- _; tauto].
      destruct (lookup_product st (ld_product_id link)) as [prod|];
        [|injection H as <- _; tauto].
      destruct (pd_file_url prod) as [[|c url]|];
        try discriminate H; injection H as <- _; tauto.
    - assert (Hfile : forall st'',
                 resolve_file_url link st = (Raise e, st'') ->
                 e = ValueError "Invalid ObjectId" \/
                 e = HTTPException 404 "Product not found" \/
                 e = HTTPException 404 "File not available for this product").
      { intros st'' Hf. rewrite resolve_file_url_cases in Hf.
        destruct (ObjectId_of_str (ld_product_id link)); [|injection Hf as <- _; tauto].
        destruct (lookup_product st (ld_product_id link)) as [prod|];
          [|injection Hf as <- _; tauto].
        destruct (pd_file_url prod) as [[|c url]|];
          try discriminate Hf; injection Hf as <- _; tauto. }
      destruct (ld_expires_at link) as [[|s|d]|].
      + apply Hfile in H. tauto.
      + destruct (String.eqb s ""); [apply Hfile in H; tauto|].
        injection H as <- _. tauto.
      + apply Hfile in H. tauto.
      + apply Hfile in H. tauto. }
  repeat split; [exact Hst|exact Hcases|].
  destruct Hcases as [->|[->|[->|[->|[->| ->]]]]]; discriminate.
Qed.

(** X8: what a successful [resolve_download] returns.  The response
    carries the [file_url], which is not empty, and the serialized document
    of the product that the token's link refers to; the link is not past
    its expiry; and the store is as it was. *)
Theorem resolve_download_Return (env : Env) (token : string) (st st' : Store)
    (r : DownloadResponse) :
  resolve_download env token st = (Return r, st') ->
  exists link prod,
    stored_link st token = Some link /\
    expired env st token = false /\
    lookup_product st (ld_product_id link) = Some prod /\
    pd_file_url prod = Some (r_file_url r) /\
    r_file_url r <> "" /\
    r_product r = serialize_doc prod /\
    r_message r = download_message /\
    st' = st.
Proof.
  intros H.
  assert (Hst : st' = st).
  { rewrite <- (resolve_download_store env token st). now rewrite H. }
  rewrite resolve_download_stored_link in H. unfold expired.
  destruct (stored_link st token) as [link|]; [|discriminate].
  rewrite check_expiry_cases in H.
  assert (Hexp : match expiry_of link with
                 | Some t => now_utc env >? t
                 | None => false
                 end = false).
  { destruct (expiry_of link) as [t|]; [|reflexivity].
    destruct (now_utc env >? t); [discriminate|reflexivity]. }
  assert (Hfile : resolve_file_url link st = (Return r, st')).
  { destruct (expiry_of link) as [t|].
    - destruct (now_utc env >? t); [discriminate|exact H].
    - destruct (ld_expires_at link) as [[|s|d]|]; try exact H.
      destruct (String.eqb s ""); [exact H|discriminate]. }
  rewrite resolve_file_url_cases in Hfile.
  destruct (ObjectId_of_str (ld_product_id link)); [|discriminate].
  destruct (lookup_product st (ld_product_id link)) as [prod|] eqn:Hprod;
    [|discriminate].
  exists link, prod.
  destruct (pd_file_url prod) as [[|c url]|] eqn:Hurl; try discriminate.
  injection Hfile as <- _. cbn [r_file_url r_product r_message].
  split; [reflexivity|]. split; [exact Hexp|]. split; [exact Hprod|].
  split; [reflexivity|]. split; [discriminate|]. now repeat split.
Qed.

(** X9: when the 410 is raised.  [resolve_download] answers "Link
    expired" exactly when the token's link carries a timestamp that lies
    strictly before the time of the request.  So a request at the very
    instant of [expires_at] is still served, and an expired link is reported
    as expired whatever became of its product. *)
Theorem resolve_download_expired_iff (env : Env) (token : string) (st : Store) :
  fst (resolve_download env token st) = Raise (HTTPException 410 "Link expired")
  <->
  exists link t,
    stored_link st token = Some link /\
    expiry_of link = Some t /\
    t < now_utc env.
Proof.
  split.
  - intros H.
    destruct (resolve_download env token st) as [r st'] eqn:E. cbn in H. subst r.
    rewrite resolve_download_stored_link in E.
    destruct (stored_link st token) as [link|]; [|discriminate].
    rewrite check_expiry_cases in E.
    assert (Hfile : forall st'',
               resolve_file_url link st
               <> (Raise (HTTPException 410 "Link expired"), st'')).
    { intros st''. rewrite resolve_file_url_cases.
      destruct (ObjectId_of_str (ld_product_id link)); [|discriminate].
      destruct (lookup_product st (ld_product_id link)) as [prod|]; [|discriminate].
      destruct (pd_file_url prod) as [[|c url]|]; discriminate. }
    destruct (expiry_of link) as [t|] eqn:Ht.
    + destruct (now_utc env >? t) eqn:Hgt; [|now apply Hfile in E].
      exists link, t. split; [reflexivity|]. split; [exact Ht|lia].
    + destruct (ld_expires_at link) as [[|s|d]|]; try now apply Hfile in E.
      destruct (String.eqb s ""); [now apply Hfile in E|discriminate].
  - intros (link & t & Hlink & Ht & Hlt).
    rewrite resolve_download_stored_link, Hlink, check_expiry_cases, Ht.
    destruct (now_utc env >? t) eqn:Hgt; [reflexivity|lia].
Qed.

End Composition.

(* ===================================================================== *)
(** * Properties of the catalog routes                                    *)
(* ===================================================================== *)

Section CatalogProperties.
Context {rt : Runtime} {fo : FloatOrder rt}.

Lemma fresh_product_id_existsb (env : Env) (st : Store) :
  fresh_product_id env st <->
  existsb (fun d => ObjectId_eqb (pd_id d) (inserted_id env)) (product st) = false.
Proof.
  unfold fresh_product_id. rewrite <- not_true_iff_false, existsb_exists, in_map_iff.
  split; intros H (d & H1 & H2); apply H; exists d.
  - apply ObjectId_eqb_eq in H2. now split.
  - split; [easy|]. now apply ObjectId_eqb_eq.
Qed.

Lemma find_inserted_product (docs : list ProductDoc) (doc : ProductDoc) :
  existsb (fun d => ObjectId_eqb (pd_id d) (pd_id doc)) docs = false ->
  find (fun d => ObjectId_eqb (pd_id d) (pd_id doc)) (docs ++ [doc]) = Some doc.
Proof.
  induction docs as [|d docs IH]; cbn.
  - now rewrite ObjectId_eqb_refl.
  - destruct (ObjectId_eqb (pd_id d) (pd_id doc)); [discriminate|exact IH].
Qed.

(** [create_product]: the store refuses the id, or the document is
    appended and the response is built from it. *)
Lemma create_product_cases (env : Env) (data : ProductIn) (st : Store) :
  create_product env data st
  = if existsb (fun d => ObjectId_eqb (pd_id d) (inserted_id env)) (product st)
    then (Raise DuplicateKeyError, st)
    else (Product_validate (serialize_doc (product_doc env data)),
          insert_product st (product_doc env data)).
Proof.
  unfold create_product, bind at 1, create_document_product.
  destruct (existsb _ (product st)) eqn:Hid; [reflexivity|].
  unfold bind, find_one_product, insert_product. cbn [product].
  pose proof (find_inserted_product (product st) (product_doc env data) Hid) as Hfind.
  cbn [pd_id product_doc] in Hfind. now rewrite Hfind.
Qed.

(** X10: what is posted to the catalog is what is stored and returned.
    For a [ProductIn] with an admissible price, when the store assigns an
    id that is not in use, [POST /api/products] appends one product
    document with the posted fields and returns the [Product] with the same
    fields, the id in string form and the insertion time.  (The ISO form of
    the insertion time has to parse back to it.) *)
Theorem post_api_products_stores_and_returns (env : Env) (body : ProductIn)
    (st : Store) :
  ProductIn_ok body = true ->
  fresh_product_id env st ->
  datetime_of_str (isoformat (insert_time env)) = Some (insert_time env) ->
  post_api_products env body st
  = (Return {| p_id := str_of_ObjectId (inserted_id env);
               p_title := pi_title body;
               p_description := pi_description body;
               p_price := pi_price body;
               p_thumbnail_url := pi_thumbnail_url body;
               p_file_url := pi_file_url body;
               p_created_at := Some (insert_time env) |},
     {| product := (product st
                    ++ [ {| pd_id := inserted_id env;
                            pd_title := pi_title body;
                            pd_description := pi_description body;
                            pd_price := Some (pi_price body);
                            pd_thumbnail_url := pi_thumbnail_url body;
                            pd_file_url := pi_file_url body;
                            pd_created_at := Some (insert_time env) |} ])%list;
        order := order st;
        lead := lead st |}).
Proof.
  intros Hok Hfresh Hiso. apply fresh_product_id_existsb in Hfresh.
  unfold post_api_products. rewrite Hok, create_product_cases, Hfresh.
  unfold Product_validate, serialize_doc, product_doc, insert_product.
  cbn [pj_price pj_created_at pd_price pd_created_at option_map].
  unfold ProductIn_ok in Hok. now rewrite Hok, Hiso.
Qed.

(** What a successful [POST /api/products] says about the store it ran
    on, the product returned and the document left. *)
Lemma post_api_products_Return (env : Env) (body : ProductIn) (st st' : Store)
    (p : Product) :
  post_api_products env body st = (Return p, st') ->
  fresh_product_id env st /\
  Product_validate (serialize_doc (product_doc env body)) = Return p /\
  p_id p = str_of_ObjectId (inserted_id env) /\
  st' = insert_product st (product_doc env body).
Proof.
  unfold post_api_products. destruct (ProductIn_ok body); [|discriminate].
  rewrite create_product_cases.
  destruct (existsb _ (product st)) eqn:Hid; [discriminate|].
  intros [= Hp <-]. apply fresh_product_id_existsb in Hid.
  repeat split; try assumption.
  revert Hp. unfold Product_validate, serialize_doc, product_doc.
  cbn [pj_price pj_created_at pd_price pd_created_at option_map pj_id pd_id].
  destruct (f_ge _ _); [|discriminate].
  destruct (datetime_of_str _); [|discriminate].
  now intros [= <-].
Qed.

(** X11: a product just added can be ordered at the price it was added
    with.  After a successful [POST /api/products], an order of [q] copies
    ([1 <= q <= 50]) of the returned product id succeeds and its amount is
    [round(0.0 + price * q, 2)] for the posted price; the order's one
    download link is for that product.  (The id's string form has to parse
    back to the id, and the order's own id must not be in use.) *)
Theorem created_product_can_be_ordered (env env2 : Env) (body : ProductIn)
    (st st1 : Store) (p : Product) (name email : string) (q : Z) :
  post_api_products env body st = (Return p, st1) ->
  ObjectId_of_str (str_of_ObjectId (inserted_id env)) = Some (inserted_id env) ->
  1 <= q <= 50 ->
  fresh_id env2 st1 ->
  exists o st2,
    post_api_orders env2 (single_item_order name email (p_id p) q) st1
    = (Return o, st2) /\
    o_amount o = round2 (f_add f_zero (f_mul (pi_price body) (float_of_int q))) /\
    map dl_product_id (o_download_links o) = [p_id p].
Proof.
  intros Hpost Hstr Hq Hfresh2.
  apply post_api_products_Return in Hpost as (Hfresh & _ & Hid & ->).
  assert (Hlookup : lookup_product (insert_product st (product_doc env body)) (p_id p)
                    = Some (product_doc env body)).
  { unfold lookup_product. rewrite Hid, Hstr. unfold insert_product. cbn [product].
    apply fresh_product_id_existsb in Hfresh.
    exact (find_inserted_product (product st) (product_doc env body) Hfresh). }
  assert (Hok : OrderIn_ok (single_item_order name email (p_id p) q) = true).
  { unfold OrderIn_ok, single_item_order, CartItem_ok. cbn. lia. }
  assert (Hprods : Forall2 (fun item prod =>
                              lookup_product (insert_product st (product_doc env body))
                                             (product_id item) = Some prod)
                           (items (single_item_order name email (p_id p) q))
                           [product_doc env body]).
  { repeat constructor. exact Hlookup. }
  unfold post_api_orders. rewrite Hok, (create_order_known _ _ _ _ Hprods Hfresh2).
  destruct (Order_of_placed_doc env2 (single_item_order name email (p_id p) q)
              (cart_sum (combine (items (single_item_order name email (p_id p) q))
                                 [product_doc env body])))
    as (dls & Hpids & _ & _ & ->).
  rewrite Hok. eexists _, _. split; [reflexivity|]. split; [reflexivity|exact Hpids].
Qed.

Lemma Product_validate_Raise (doc : ProductJson) (e : exn) :
  Product_validate doc = Raise e -> e = ValidationError.
Proof.
  unfold Product_validate.
  destruct (pj_price doc); [|now intros [= <-]].
  destruct (f_ge _ _); [|now intros [= <-]].
  destruct (pj_created_at doc); [|discriminate].
  destruct (datetime_of_str _); [discriminate|now intros [= <-]].
Qed.

(** The loop of [list_products] builds the list of the validated
    documents behind what it was given. *)
Lemma list_products_loop_map (docs : list ProductDoc) :
  forall products,
    list_products_loop docs products
    = bind_result (map_result (fun d => Product_validate (serialize_doc d)) docs)
                  (fun ps => Return (products ++ ps)%list).
Proof.
  induction docs as [|d docs IH]; intros products; cbn [list_products_loop map_result].
  - cbn. now rewrite app_nil_r.
  - destruct (Product_validate (serialize_doc d)) as [p|e]; [|reflexivity].
    cbn [bind_result]. rewrite IH.
    destruct (map_result _ docs) as [ps|e]; [|reflexivity].
    cbn. now rewrite <- app_assoc.
Qed.

Lemma list_products_map (st : Store) :
  list_products st
  = (map_result (fun d => Product_validate (serialize_doc d)) (product st), st).
Proof.
  unfold list_products, bind, get_documents_product, lift.
  rewrite list_products_loop_map.
  now destruct (map_result _ (product st)).
Qed.

Lemma map_result_Return {A B : Type} (f : A -> result B) (xs : list A) :
  forall ys, map_result f xs = Return ys -> Forall2 (fun x y => f x = Return y) xs ys.
Proof.
  induction xs as [|x xs IH]; intros ys; cbn.
  - intros [= <-]. constructor.
  - destruct (f x) as [y|e] eqn:Hx; [|discriminate]. cbn.
    destruct (map_result f xs) as [ys'|e]; [|discriminate]. cbn.
    intros [= <-]. constructor; [exact Hx|now apply IH].
Qed.

(** X12: what the listing returns.  When [GET /api/products] succeeds it
    has changed nothing and returns one [Product] per stored product
    document, in the order the store gave them: each with the document's id
    in string form, its title, description, thumbnail and file URL, and the
    price the document carries, which passes [ge=0]. *)
Theorem list_products_Return (st st' : Store) (ps : list Product) :
  list_products st = (Return ps, st') ->
  st' = st /\
  Forall2 (fun d p =>
             p_id p = str_of_ObjectId (pd_id d) /\
             p_title p = pd_title d /\
             p_description p = pd_description d /\
             pd_price d = Some (p_price p) /\
             f_ge (p_price p) (float_of_int 0) = true /\
             p_thumbnail_url p = pd_thumbnail_url d /\
             p_file_url p = pd_file_url d)
          (product st) ps.
Proof.
  rewrite list_products_map. intros [= Hmap <-]. split; [reflexivity|].
  apply map_result_Return in Hmap.
  induction Hmap as [|d p ds ps' Hd _ IH]; constructor; [|exact IH].
  revert Hd. unfold Product_validate, serialize_doc.
  cbn [pj_price pj_created_at pj_id pj_title pj_description pj_thumbnail_url pj_file_url].
  destruct (pd_price d) as [price|]; [|discriminate].
  destruct (f_ge price (float_of_int 0)) eqn:Hge; [|discriminate].
  destruct (option_map isoformat (pd_created_at d)) as [s|].
  - destruct (datetime_of_str s); [|discriminate]. intros [= <-]. cbn. now repeat split.
  - intros [= <-]. cbn. now repeat split.
Qed.

Lemma map_result_Raise_ValidationError (docs : list ProductDoc) (d : ProductDoc)
    (e : exn) :
  In d docs ->
  Product_validate (serialize_doc d) = Raise e ->
  map_result (fun d => Product_validate (serialize_doc d)) docs
  = Raise ValidationError.
Proof.
  induction docs as [|x docs IH]; intros Hin Hd; [destruct Hin|].
  cbn [map_result].
  destruct (Product_validate (serialize_doc x)) as [p|e'] eqn:Hx.
  - destruct Hin as [->|Hin]; [rewrite Hd in Hx; discriminate|].
    cbn. now rewrite (IH Hin Hd).
  - cbn. now rewrite (Product_validate_Raise _ _ Hx).
Qed.

(** X13: one stored product without a valid price fails the whole
    listing.  If some product document has no [price], or a price that does
    not pass [ge=0], [GET /api/products] returns no product at all: it
    raises the ValidationError of the [Product] model (an unhandled
    exception, HTTP 500) and changes nothing.  [create_order] reads the same
    document with [.get("price", 0)] and prices it at [float(0)]. *)
Theorem list_products_invalid_price (st : Store) (d : ProductDoc) :
  In d (product st) ->
  pd_price d = None \/
  (exists price, pd_price d = Some price /\ f_ge price (float_of_int 0) = false) ->
  list_products st = (Raise ValidationError, st) /\
  http_status ValidationError = 500 /\
  (pd_price d = None -> price_of d = float_of_int 0).
Proof.
  intros Hin Hprice. split; [|split; [reflexivity|]].
  - rewrite list_products_map.
    rewrite (map_result_Raise_ValidationError _ d ValidationError Hin); [reflexivity|].
    unfold Product_validate, serialize_doc. cbn [pj_price].
    destruct Hprice as [->|(price & -> & ->)]; reflexivity.
  - intros Hnone. unfold price_of. now rewrite Hnone.
Qed.

Lemma map_result_app {A B : Type} (f : A -> result B) (xs : list A) (x : A)
    (ys : list B) (y : B) :
  map_result f xs = Return ys ->
  f x = Return y ->
  map_result f (xs ++ [x]) = Return (ys ++ [y])%list.
Proof.
  revert ys. induction xs as [|a xs IH]; intros ys; cbn.
  - intros [= <-] ->. reflexivity.
  - destruct (f a) as [b|e]; [|discriminate]. cbn.
    destruct (map_result f xs) as [ys'|e]; [|discriminate]. cbn.
    intros [= <-] Hx. now rewrite (IH ys' eq_refl Hx).
Qed.

Lemma list_products_loop_nil (docs : list ProductDoc) :
  list_products_loop docs []
  = map_result (fun d => Product_validate (serialize_doc d)) docs.
Proof.
  rewrite list_products_loop_map. now destruct (map_result _ docs).
Qed.

(** Validating the documents in another order gives the same products in
    that other order. *)
Lemma map_result_Permutation {A B : Type} (f : A -> result B) (xs xs' : list A) :
  Permutation xs xs' ->
  forall ys, map_result f xs = Return ys ->
             exists ys', map_result f xs' = Return ys' /\ Permutation ys ys'.
Proof.
  induction 1 as [|x l l' _ IH|x y l|l l' l'' _ IH1 _ IH2]; intros ys Hys.
  - exists ys. split; [exact Hys|apply Permutation_refl].
  - cbn in Hys |- *. destruct (f x) as [b|e]; [|discriminate]. cbn in Hys |- *.
    destruct (map_result f l) as [ys0|e]; [|discriminate].
    destruct (IH ys0 eq_refl) as (ys0' & -> & Hperm). cbn in Hys |- *.
    injection Hys as <-. exists (b :: ys0'). split; [reflexivity|now constructor].
  - cbn in Hys |- *. destruct (f y) as [b|e]; [|discriminate]. cbn in Hys |- *.
    destruct (f x) as [a|e]; [|discriminate]. cbn in Hys |- *.
    destruct (map_result f l) as [ys0|e]; [|discriminate]. cbn in Hys |- *.
    injection Hys as <-. exists (a :: b :: ys0). split; [reflexivity|constructor].
  - destruct (IH1 ys Hys) as (ys' & Hys' & Hp1).
    destruct (IH2 ys' Hys') as (ys'' & Hys'' & Hp2).
    exists ys''. split; [exact Hys''|exact (Permutation_trans Hp1 Hp2)].
Qed.

(** X14: a product just added shows up in the listing, whatever the order
    in which the store returns its documents.  If the listing worked before
    a successful [POST /api/products], the listing afterwards works too and
    returns the products it returned before together with the product that
    the request returned: this holds for the loop of [list_products] run on
    the documents of the resulting store in any order. *)
Theorem list_products_after_post (env : Env) (body : ProductIn) (st st1 : Store)
    (ps : list Product) (p : Product) :
  list_products st = (Return ps, st) ->
  post_api_products env body st = (Return p, st1) ->
  (exists ps1, list_products st1 = (Return ps1, st1) /\ Permutation ps1 (p :: ps)) /\
  (forall docs, Permutation docs (product st1) ->
                exists ps1, list_products_loop docs [] = Return ps1 /\
                            Permutation ps1 (p :: ps)).
Proof.
  intros Hlist Hpost.
  apply post_api_products_Return in Hpost as (_ & Hp & _ & ->).
  rewrite list_products_map in Hlist. injection Hlist as Hlist.
  pose proof (map_result_app _ _ _ _ _ Hlist Hp) as Hall.
  assert (Hany : forall docs,
             Permutation docs (product (insert_product st (product_doc env body))) ->
             exists ps1, list_products_loop docs [] = Return ps1 /\
                         Permutation ps1 (p :: ps)).
  { intros docs Hperm. unfold insert_product in Hperm. cbn [product] in Hperm.
    destruct (map_result_Permutation _ _ _ (Permutation_sym Hperm) _ Hall)
      as (ps1 & Hps1 & Hp1).
    exists ps1. rewrite list_products_loop_nil. split; [exact Hps1|].
    apply Permutation_sym. apply (Permutation_trans (Permutation_cons_append ps p)).
    exact Hp1. }
  split; [|exact Hany].
  destruct (Hany _ (Permutation_refl _)) as (ps1 & Hps1 & Hp1).
  exists ps1. split; [|exact Hp1].
  rewrite list_products_map, <- list_products_loop_nil. now rewrite Hps1.
Qed.

End CatalogProperties.

(* ===================================================================== *)
(** * More requests replayed on the shop                                  *)
(* ===================================================================== *)

Section ReplayMore.
#[local] Existing Instance cpython.
#[local] Existing Instance Backroom.cpython_order.
Import Shop Backroom.

Lemma get_order_unknown_witness :
  ObjectId_of_str "ebook" = None /\
  get_order env "ebook" shop = (Raise (ValueError "Invalid ObjectId"), shop) /\
  ObjectId_of_str gone_id = Some gone_id /\
  ~ In gone_id (map od_id (order shop)) /\
  get_order env gone_id shop = (Raise (HTTPException 404 "Order not found"), shop).
Proof.
  assert (Hnot : ~ In gone_id (map od_id (order shop))).
  { intros Hin. cbn in Hin. destruct Hin as [Hin|[Hin|[]]]; discriminate Hin. }
  refine (conj eq_refl (conj _ (conj eq_refl (conj Hnot _)))).
  - exact (proj1 (get_order_unknown env "ebook" shop) eq_refl).
  - exact (proj2 (get_order_unknown env gone_id shop) gone_id eq_refl Hnot).
Defined.

Lemma get_order_returns_placed_order_witness :
  post_api_orders env two_ebooks catalog
  = (Return two_ebooks_order, insert_order catalog two_ebooks_doc) /\
  ObjectId_of_str (str_of_ObjectId (inserted_id env)) = Some (inserted_id env) /\
  get_order (env_after 3) (o_id two_ebooks_order) (insert_order catalog two_ebooks_doc)
  = (Return two_ebooks_order, insert_order catalog two_ebooks_doc).
Proof.
  refine (conj eq_refl (conj eq_refl _)).
  exact (get_order_returns_placed_order env (env_after 3) two_ebooks catalog
           (insert_order catalog two_ebooks_doc) two_ebooks_order eq_refl eq_refl).
Defined.

Lemma post_api_orders_all_or_nothing_witness :
  post_api_orders env (cart [line ebook_id 1; line gone_id 2]) shop
  = (Raise (HTTPException 404 "Product not found: 65f0a1b2c3d4e5f6a7b8c9d2"), shop) /\
  (shop = shop /\
   ((HTTPException 404 "Product not found: 65f0a1b2c3d4e5f6a7b8c9d2"
     = RequestValidationError /\
     exists item, In item (items (cart [line ebook_id 1; line gone_id 2])) /\
                  (quantity item < 1 \/ 50 < quantity item)) \/
    (exists item, In item (items (cart [line ebook_id 1; line gone_id 2])) /\
                  lookup_product shop (product_id item) = None /\
                  HTTPException 404 "Product not found: 65f0a1b2c3d4e5f6a7b8c9d2"
                  = match ObjectId_of_str (product_id item) with
                    | Some _ =>
                        HTTPException 404 ("Product not found: " ++ product_id item)
                    | None => ValueError "Invalid ObjectId"
                    end) \/
    (HTTPException 404 "Product not found: 65f0a1b2c3d4e5f6a7b8c9d2"
     = DuplicateKeyError /\
     In (inserted_id env) (map od_id (order shop))))).
Proof.
  refine (conj eq_refl _).
  exact (post_api_orders_all_or_nothing env (cart [line ebook_id 1; line gone_id 2])
           shop shop _ eq_refl).
Defined.

Lemma resolve_download_minted_token_witness :
  post_api_orders env two_ebooks catalog
  = (Return two_ebooks_order, insert_order catalog two_ebooks_doc) /\
  now_utc (env_after 7) <= now_utc env + timedelta_days 7 /\
  lookup_product catalog ebook_id = Some ebook /\
  resolve_download (env_after 7) "tok-0000000000000000000000000000"
                   (insert_order catalog two_ebooks_doc)
  = (Return {| r_product := serialize_doc ebook;
               r_file_url := "https://x/e.pdf";
               r_message := download_message |},
     insert_order catalog two_ebooks_doc).
Proof.
  assert (Hnow : now_utc (env_after 7) <= now_utc env + timedelta_days 7)
    by discriminate.
  refine (conj eq_refl (conj Hnow (conj eq_refl _))).
  refine (resolve_download_minted_token env (env_after 7) two_ebooks catalog
            (insert_order catalog two_ebooks_doc) two_ebooks_order 0
            (line ebook_id 2)
            {| dl_product_id := ebook_id;
               dl_token := "tok-0000000000000000000000000000";
               dl_expires_at := noon + timedelta_days 7 |}
            ebook "https://x/e.pdf" eq_refl eq_refl eq_refl _ _ Hnow eq_refl eq_refl _).
  - intros l [].
  - intros j dl' Hj. inversion Hj.
  - discriminate.
Defined.

Lemma resolve_download_unaffected_by_order_witness :
  (exists l, In l (all_links shop) /\ ld_token l = "tok-ebook") /\
  resolve_download (env_after 2) "tok-ebook"
                   (snd (post_api_orders env_checkout two_ebooks shop))
  = (fst (resolve_download (env_after 2) "tok-ebook" shop),
     snd (post_api_orders env_checkout two_ebooks shop)).
Proof.
  assert (Hheld : exists l, In l (all_links shop) /\ ld_token l = "tok-ebook").
  { eexists. split; [left; reflexivity|reflexivity]. }
  refine (conj Hheld _).
  exact (resolve_download_unaffected_by_order env_checkout (env_after 2) two_ebooks
           shop _ _ "tok-ebook"
           (surjective_pairing (post_api_orders env_checkout two_ebooks shop)) Hheld).
Defined.

(** The checkout of the witness did add an order to the shop. *)
Example checkout_adds_an_order :
  List.length (order (snd (post_api_orders env_checkout two_ebooks shop))) = 3%nat.
Proof. reflexivity. Qed.

Lemma get_order_unaffected_by_order_witness :
  ObjectId_of_str "65f0a1b2c3d4e5f6a7b8c9e0" = Some "65f0a1b2c3d4e5f6a7b8c9e0" /\
  In "65f0a1b2c3d4e5f6a7b8c9e0" (map od_id (order shop)) /\
  get_order (env_after 2) "65f0a1b2c3d4e5f6a7b8c9e0"
            (snd (post_api_orders env_checkout two_ebooks shop))
  = (fst (get_order (env_after 2) "65f0a1b2c3d4e5f6a7b8c9e0" shop),
     snd (post_api_orders env_checkout two_ebooks shop)).
Proof.
  assert (Hin : In "65f0a1b2c3d4e5f6a7b8c9e0" (map od_id (order shop)))
    by (left; reflexivity).
  refine (conj eq_refl (conj Hin _)).
  exact (get_order_unaffected_by_order env_checkout (env_after 2) two_ebooks
           shop _ _ "65f0a1b2c3d4e5f6a7b8c9e0" "65f0a1b2c3d4e5f6a7b8c9e0"
           (surjective_pairing (post_api_orders env_checkout two_ebooks shop))
           eq_refl Hin).
Defined.

Lemma resolve_download_errors_witness :
  resolve_download env "tok-gone" shop
  = (Raise (HTTPException 404 "Product not found"), shop) /\
  (shop = shop /\
   (HTTPException 404 "Product not found" = HTTPException 404 "Invalid token" \/
    HTTPException 404 "Product not found" = HTTPException 410 "Link expired" \/
    HTTPException 404 "Product not found" = TypeError \/
    HTTPException 404 "Product not found" = ValueError "Invalid ObjectId" \/
    HTTPException 404 "Product not found" = HTTPException 404 "Product not found" \/
    HTTPException 404 "Product not found"
    = HTTPException 404 "File not available for this product") /\
   HTTPException 404 "Product not found" <> HTTPException 404 "Download not found").
Proof.
  refine (conj eq_refl _).
  exact (resolve_download_errors env "tok-gone" shop shop _ eq_refl).
Defined.

Lemma resolve_download_Return_witness :
  resolve_download env "tok-iso" shop
  = (Return {| r_product := serialize_doc ebook;
               r_file_url := "https://x/e.pdf";
               r_message := download_message |}, shop) /\
  exists l prod,
    stored_link shop "tok-iso" = Some l /\
    expired env shop "tok-iso" = false /\
    lookup_product shop (ld_product_id l) = Some prod /\
    pd_file_url prod = Some "https://x/e.pdf" /\
    "https://x/e.pdf" <> "" /\
    serialize_doc ebook = serialize_doc prod /\
    download_message = download_message /\
    shop = shop.
Proof.
  refine (conj eq_refl _).
  exact (resolve_download_Return env "tok-iso" shop shop _ eq_refl).
Defined.

(** At the instant of expiry the link is still served; one microsecond
    later it is not, and a link whose product is gone is reported as
    expired rather than as missing. *)
Lemma resolve_download_expired_iff_witness :
  fst (resolve_download (env_after 7) "tok-ebook" shop)
  <> Raise (HTTPException 410 "Link expired") /\
  fst (resolve_download (env_after 8) "tok-gone" shop)
  = Raise (HTTPException 410 "Link expired").
Proof.
  split.
  - intros H.
    apply (proj1 (resolve_download_expired_iff (env_after 7) "tok-ebook" shop)) in H
      as (l & t & Hl & Ht & Hlt).
    injection Hl as <-. injection Ht as <-. discriminate Hlt.
  - apply (proj2 (resolve_download_expired_iff (env_after 8) "tok-gone" shop)).
    exists (link gone_id "tok-gone" (Some (PyDatetime (noon + timedelta_days 7)))),
           (noon + timedelta_days 7).
    repeat split.
Defined.

Lemma post_api_products_stores_and_returns_witness :
  ProductIn_ok course = true /\
  fresh_product_id env_course catalog /\
  datetime_of_str (isoformat (insert_time env_course)) = Some (insert_time env_course) /\
  post_api_products env_course course catalog
  = (Return course_product,
     {| product := [ebook; draft; product_doc env_course course];
        order := [];
        lead := [] |}).
Proof.
  assert (Hfresh : fresh_product_id env_course catalog).
  { intros Hin. cbn in Hin. destruct Hin as [Hin|[Hin|[]]]; discriminate Hin. }
  refine (conj eq_refl (conj Hfresh (conj eq_refl _))).
  exact (post_api_products_stores_and_returns env_course course catalog
           eq_refl Hfresh eq_refl).
Defined.

Lemma created_product_can_be_ordered_witness :
  post_api_products env_course course catalog
  = (Return course_product, insert_product catalog (product_doc env_course course)) /\
  ObjectId_of_str (str_of_ObjectId (inserted_id env_course))
  = Some (inserted_id env_course) /\
  1 <= 3 <= 50 /\
  fresh_id env_checkout (insert_product catalog (product_doc env_course course)) /\
  exists o st2,
    post_api_orders env_checkout
      (single_item_order "Ada" "ada@example.org" (p_id course_product) 3)
      (insert_product catalog (product_doc env_course course))
    = (Return o, st2) /\
    o_amount o = round2 (f_add f_zero (f_mul (pi_price course) (float_of_int 3))) /\
    map dl_product_id (o_download_links o) = [p_id course_product].
Proof.
  assert (Hq : 1 <= 3 <= 50) by (split; discriminate).
  assert (Hfresh : fresh_id env_checkout
                     (insert_product catalog (product_doc env_course course)))
    by (intros []).
  refine (conj eq_refl (conj eq_refl (conj Hq (conj Hfresh _)))).
  exact (created_product_can_be_ordered env_course env_checkout course catalog
           (insert_product catalog (product_doc env_course course)) course_product
           "Ada" "ada@example.org" 3 eq_refl eq_refl Hq Hfresh).
Defined.

(** Three copies of the course at 25.50 come to 76.50. *)
Example three_courses_amount :
  round2 (f_add f_zero (f_mul (pi_price course) (float_of_int 3))) = price 7650.
Proof. reflexivity. Qed.

Lemma list_products_Return_witness :
  list_products catalog = (Return [ebook_product; draft_product], catalog) /\
  (catalog = catalog /\
   Forall2 (fun d p =>
              p_id p = str_of_ObjectId (pd_id d) /\
              p_title p = pd_title d /\
              p_description p = pd_description d /\
              pd_price d = Some (p_price p) /\
              f_ge (p_price p) (float_of_int 0) = true /\
              p_thumbnail_url p = pd_thumbnail_url d /\
              p_file_url p = pd_file_url d)
           (product catalog) [ebook_product; draft_product]).
Proof.
  refine (conj eq_refl _).
  exact (list_products_Return catalog catalog [ebook_product; draft_product] eq_refl).
Defined.

Lemma list_products_invalid_price_witness :
  In sample (product catalog_with_sample) /\
  pd_price sample = None /\
  list_products catalog_with_sample = (Raise ValidationError, catalog_with_sample) /\
  http_status ValidationError = 500 /\
  (pd_price sample = None -> price_of sample = float_of_int 0).
Proof.
  assert (Hin : In sample (product catalog_with_sample)) by (right; left; reflexivity).
  refine (conj Hin (conj eq_refl _)).
  exact (list_products_invalid_price catalog_with_sample sample Hin (or_introl eq_refl)).
Defined.

Lemma list_products_after_post_witness :
  list_products catalog = (Return [ebook_product; draft_product], catalog) /\
  post_api_products env_course course catalog
  = (Return course_product, insert_product catalog (product_doc env_course course)) /\
  Permutation (product_doc env_course course :: [ebook; draft])
              (product (insert_product catalog (product_doc env_course course))) /\
  exists ps1,
    list_products_loop (product_doc env_course course :: [ebook; draft]) [] = Return ps1 /\
    Permutation ps1 (course_product :: [ebook_product; draft_product]).
Proof.
  assert (Hperm : Permutation (product_doc env_course course :: [ebook; draft])
                    (product (insert_product catalog (product_doc env_course course))))
    by exact (Permutation_cons_append [ebook; draft] (product_doc env_course course)).
  refine (conj eq_refl (conj eq_refl (conj Hperm _))).
  exact (proj2 (list_products_after_post env_course course catalog
                  (insert_product catalog (product_doc env_course course))
                  [ebook_product; draft_product] course_product eq_refl eq_refl)
               _ Hperm).
Defined.

End ReplayMore.
